(** * Dopamine reserve model: a shallow embedding of the simulation core

    The program is a React component (function [Model]) that keeps three
    pieces of state, the reserve [pool], the chart buffer [data] and the
    list of running [activities], and updates them from a repeating timer
    and from button clicks.

    Two revisions of the component are part of the repository:
    - [ModelTsx] embeds src/Model/Model.tsx, whose samples carry
      [minuteOfDay];
    - [Part002] embeds the revision whose samples carry [minuteSinceStart]
      and [daytime].
    The activity table, [dopamineTurnover] and [totalDopamineUse] are the
    same text in both and are embedded once.

    Conventions of the embedding.
    - A JavaScript [number] that holds a quantity (rates, the reserve) is
      read in two ways.  The components [ModelTsx] and [Part002] carry it
      as an exact rational of [Q], compared with [==]; they serve the
      properties of the buffer, of the activities and of the order of
      reserve values.  The module [Double] gives the numeric code its
      reading in IEEE-754 binary64 (primitive floats, every operation
      rounded as JavaScript rounds it); it serves the statements whose
      truth depends on rounding.
    - A [number] that counts samples (an array index, [minuteSinceStart]) is
      an integer of [Z]; [%] is the truncating remainder [Z.rem].
    - An array is a [list]; the code never updates an array in place after
      it has been handed to a state setter, so sharing is not observable.
    - A render closes over the state of that render; the timer callback of
      the latest render is the one that runs, so a tick is a function of the
      current state.  Callbacks of [setTimeout] keep the closure of the
      render that created them. *)

From Stdlib Require Import String List ZArith QArith Qminmax.
From Stdlib Require Import Lia Lqa Permutation Sorted DecimalString Bool.
From Stdlib Require Import Qabs PrimFloat SpecFloat FloatOps.
Import ListNotations.

Local Open Scope Q_scope.

(** ** Outcomes of JavaScript evaluation *)

Module Js.

(** A thrown error value, identified by its [name] property. *)
Inductive error : Type :=
| JsError (name : string).

Definition TypeError : error := JsError "TypeError".

(** How the evaluation of a piece of code ends. *)
Inductive completion (A : Type) : Type :=
| Return (v : A)
| Throw (e : error).

Arguments Return {A} v.
Arguments Throw {A} e.

(** A number that may have left the rationals. *)
Inductive number : Type :=
| Num (q : Q)
| NaN.

(** Property names every ordinary object inherits from
    [Object.prototype]; none of the inherited values has a [factor]. *)
Definition Object_prototype_keys : list string :=
  [ "constructor"; "hasOwnProperty"; "isPrototypeOf";
    "propertyIsEnumerable"; "toLocaleString"; "toString"; "valueOf";
    "__proto__"; "__defineGetter__"; "__defineSetter__";
    "__lookupGetter__"; "__lookupSetter__" ]%string.

End Js.

(** ** Configuration constants *)

Definition SimulationSpeed : Q := 60.
Definition MaxDataLength : nat := 2 * 24 * 60.
Definition DopamineReserveRefillPerMinuteInPercent : Q := 0.1.
Definition DopamineBaseTurnOverPerMinuteInPercent : Q := 0.05.

(** ** The activity catalog *)

Record ActivityDefinition : Type := {
  label : string;
  duration : Q;
  factor : Q
}.

(** [type Activity = keyof typeof ACTIVITIES]: the eight keys of the table. *)
Inductive Activity : Type :=
| sleep | work | play | amphetamine | chocolate | sex | excercise | smoke.

(** The value stored under each key of the object literal [ACTIVITIES]. *)
Definition ACTIVITIES (activity : Activity) : ActivityDefinition :=
  match activity with
  | sleep =>
      {| label := "Sleep"; duration := 60 * 8; factor := -0.75 |}
  | work =>
      {| label := "Work"; duration := 60 * 8; factor := 1.5 |}
  | play =>
      {| label := "Play"; duration := 60 * 2; factor := 2.0 |}
  | amphetamine =>
      {| label := "Take Amphetamine"; duration := 1; factor := 10.0 |}
  | chocolate =>
      {| label := "Eat Chocolate"; duration := 5; factor := 1.5 |}
  | sex =>
      {| label := "Sex"; duration := 30; factor := 2.0 |}
  | excercise =>
      {| label := "Excercise"; duration := 30; factor := 2.0 |}
  | smoke =>
      {| label := "Smoke"; duration := 5; factor := 2.5 |}
  end.

(** The property name of each key, as written in the source. *)
Definition key (activity : Activity) : string :=
  match activity with
  | sleep => "sleep"
  | work => "work"
  | play => "play"
  | amphetamine => "amphetamine"
  | chocolate => "chocolate"
  | sex => "sex"
  | excercise => "excercise"
  | smoke => "smoke"
  end.

(** [Object.keys(ACTIVITIES)]: the keys in the order of the literal. *)
Definition Object_keys : list Activity :=
  [sleep; work; play; amphetamine; chocolate; sex; excercise; smoke].

(** [a === b] on two keys. *)
Definition Activity_eqb (a b : Activity) : bool :=
  match a, b with
  | sleep, sleep | work, work | play, play | amphetamine, amphetamine
  | chocolate, chocolate | sex, sex | excercise, excercise
  | smoke, smoke => true
  | _, _ => false
  end.

(** ** Consumption *)

Definition dopamineTurnover (activity : Activity) (t : Q) : Q :=
  let baseline := DopamineBaseTurnOverPerMinuteInPercent in
  let factor := factor (ACTIVITIES activity) in
  baseline * factor.

(** [xs.reduce((a, b) => a + b, 0)] is a left fold from [0]. *)
Definition totalDopamineUse (activities : list Activity) (t : Q) : Q :=
  DopamineBaseTurnOverPerMinuteInPercent
  + fold_left (fun a b => a + b)
      (map (fun activity => dopamineTurnover activity 0) activities) 0.

(** ** Property access on the table with an arbitrary string

    The type [Activity] confines callers to the eight keys.  What
    [ACTIVITIES[k]] and [dopamineTurnover] do for any other string is what
    the language does with a property that is missing or inherited. *)

Module Dynamic.
Import Js.

Inductive value : Type :=
| Own (d : ActivityDefinition)   (* an entry of the literal *)
| Inherited                      (* found on [Object.prototype] *)
| Undefined.                     (* not found at all *)

(** The own properties of the literal, in source order. *)
Definition own_properties : list (string * ActivityDefinition) :=
  map (fun a => (key a, ACTIVITIES a)) Object_keys.

Fixpoint assoc (k : string) (l : list (string * ActivityDefinition))
  : option ActivityDefinition :=
  match l with
  | [] => None
  | (k', d) :: l' => if String.eqb k k' then Some d else assoc k l'
  end.

(** [ACTIVITIES[k]] *)
Definition get (k : string) : value :=
  match assoc k own_properties with
  | Some d => Own d
  | None =>
      if existsb (String.eqb k) Object_prototype_keys
      then Inherited else Undefined
  end.

(** [dopamineTurnover] applied to a string that need not be a key:
    reading [.factor] of [undefined] throws a [TypeError]; an inherited
    value has no [factor], and [baseline * undefined] is [NaN]. *)
Definition dopamineTurnover (activity : string) (t : Q)
  : completion number :=
  let baseline := DopamineBaseTurnOverPerMinuteInPercent in
  match get activity with
  | Own d => Return (Num (baseline * factor d))
  | Inherited => Return NaN
  | Undefined => Throw TypeError
  end.

End Dynamic.

(** ** The component [Model]: state, toggles, clicks and timers

    Everything here is the same text in both revisions; only the type [D]
    of the samples and the timer callback differ, and they are parameters. *)

Module Model.

(** The three [useState] cells.  ([expanded] is never read.) *)
Record State (D : Type) : Type := {
  pool : Q;
  data : list D;
  activities : list Activity
}.

Arguments pool {D} s.
Arguments data {D} s.
Arguments activities {D} s.
Arguments Build_State {D} pool data activities.

(** [onActivityToggle] closes over the [activities] of its render and
    passes a new array to [setActivities]; the result is that array. *)
Definition onActivityToggle (activities : list Activity)
    (activity : Activity) (value : bool) : list Activity :=
  if value
  then activities ++ [activity]
  else filter (fun a => negb (Activity_eqb a activity)) activities.

(** [activities.indexOf(activity) >= 0], the [active] prop of a switch. *)
Definition active (activities : list Activity) (activity : Activity)
  : bool :=
  existsb (Activity_eqb activity) activities.

(** A pending [setTimeout] of [ActivitySwitch.onClick]: it holds the
    [props] of the render in which the click happened, that is the
    activity and an [onToggle] closed over that render's [activities]. *)
Record Timeout : Type := {
  props_activity : Activity;
  closure_activities : list Activity
}.

Record System (D : Type) : Type := {
  state : State D;
  timeouts : list Timeout
}.

Arguments state {D} s.
Arguments timeouts {D} s.
Arguments Build_System {D} state timeouts.

Inductive Event : Type :=
| Tick                          (* the interval callback runs *)
| Click (activity : Activity)   (* the user presses a switch *)
| Expire (n : nat).             (* the n-th pending timeout runs *)

Section Dynamics.

Context {D : Type}.

(** The state the interval callback leaves behind. *)
Variable tick : State D -> State D.

Definition setActivities (s : State D) (l : list Activity) : State D :=
  {| pool := pool s; data := data s; activities := l |}.

(** [ActivitySwitch.onClick]; the button is [disabled] while the
    reserve is below 1. *)
Definition onClick (sys : System D) (activity : Activity) : System D :=
  let s := state sys in
  if Qle_bool 1 (pool s) then
    let newState := negb (active (activities s) activity) in
    let s' :=
      setActivities s (onActivityToggle (activities s) activity newState)
    in
    {| state := s';
       timeouts :=
         if newState
         then timeouts sys
                ++ [ {| props_activity := activity;
                        closure_activities := activities s |} ]
         else timeouts sys |}
  else sys.

(** The deferred [props.onToggle(props.activity, false)]. *)
Definition onTimeout (sys : System D) (n : nat) : System D :=
  match nth_error (timeouts sys) n with
  | Some t =>
      {| state :=
           setActivities (state sys)
             (onActivityToggle (closure_activities t)
                (props_activity t) false);
         timeouts :=
           firstn n (timeouts sys) ++ skipn (S n) (timeouts sys) |}
  | None => sys
  end.

Definition step (sys : System D) (e : Event) : System D :=
  match e with
  | Tick => {| state := tick (state sys); timeouts := timeouts sys |}
  | Click activity => onClick sys activity
  | Expire n => onTimeout sys n
  end.

Definition run (sys : System D) (es : list Event) : System D :=
  fold_left step es sys.

Variable initialData : list D.

(** [useState(50)], [useState(initialData)], [useState([])]. *)
Definition initial : System D :=
  {| state := {| pool := 50; data := initialData; activities := [] |};
     timeouts := [] |}.

Inductive reachable : System D -> Prop :=
| reachable_initial : reachable initial
| reachable_step sys e : reachable sys -> reachable (step sys e).

(** [n] consecutive ticks. *)
Fixpoint ticks (n : nat) (s : State D) : State D :=
  match n with
  | O => s
  | S n' => tick (ticks n' s)
  end.

End Dynamics.

End Model.

(** ** Revision src/Model/Model.tsx *)

Module ModelTsx.

Record DataPoint : Type := {
  minuteOfDay : Z;
  dopamineLevel : Q;
  reservePercent : Q;
  activities : list Activity
}.

Definition State : Type := Model.State DataPoint.

(** [Object.keys([...Array(MaxDataLength)]).map((_, i) => ...)] *)
Definition initialData : list DataPoint :=
  map (fun i =>
         {| minuteOfDay := Z.of_nat i;
            dopamineLevel := DopamineBaseTurnOverPerMinuteInPercent;
            reservePercent := 50;
            activities := [] |})
      (seq 0 MaxDataLength).

(** The callback of [setInterval]. *)
Definition tick (s : State) : State :=
  let dopamineNeed := totalDopamineUse (Model.activities s) 0 in
  let dopamineDiff :=
    DopamineReserveRefillPerMinuteInPercent - dopamineNeed in
  let newPool := Qmax 0 (Qmin 100 (Model.pool s + dopamineDiff)) in
  let newData :=
    Model.data s
    ++ [ {| minuteOfDay := Z.of_nat (length (Model.data s));
            dopamineLevel := dopamineNeed;
            reservePercent := newPool;
            activities := Model.activities s |} ] in
  let newData :=
    if (2 * 24 * 60 <? length newData)%nat
    then tl newData      (* newData.shift() *)
    else newData in
  {| Model.pool := newPool;
     Model.data := newData;
     Model.activities := Model.activities s |}.

Definition initial : Model.System DataPoint := Model.initial initialData.
Definition step := Model.step tick.
Definition reachable := Model.reachable tick initialData.
Definition ticks := Model.ticks tick.

End ModelTsx.

(** ** Revision with [minuteSinceStart] and [daytime] *)

Module Part002.

Record DataPoint : Type := {
  minuteSinceStart : Z;
  daytime : string;
  dopamineLevel : Q;
  reservePercent : Q;
  activities : list Activity
}.

Definition State : Type := Model.State DataPoint.

(** An integer in a template literal prints in decimal. *)
Definition toString (n : Z) : string :=
  NilZero.string_of_int (Z.to_int n).

Definition minuteSinceStartToDaytime (minuteSinceStart : Z) : string :=
  let minuteOfDay := Z.rem minuteSinceStart (24 * 60) in
  let daytimeHour := (minuteOfDay / 60)%Z in      (* Math.floor *)
  let minuteOfDayInHour := Z.rem minuteOfDay 60 in
  (toString daytimeHour ++ ":"
   ++ (if (minuteOfDayInHour <? 10)%Z then "0" else "")
   ++ toString minuteOfDayInHour)%string.

Definition initialData : list DataPoint :=
  map (fun i =>
         {| minuteSinceStart := Z.of_nat i;
            daytime := minuteSinceStartToDaytime (Z.of_nat i);
            dopamineLevel := DopamineBaseTurnOverPerMinuteInPercent;
            reservePercent := 50;
            activities := [] |})
      (seq 0 MaxDataLength).

(** The callback of [setInterval].  It returns the state it leaves and
    the error it throws, if any: [data[data.length - 1]] is [undefined]
    for an empty buffer and reading its [minuteSinceStart] throws, after
    [setPool] has been called and before [setData]. *)
Definition tick (s : State) : State * option Js.error :=
  let dopamineNeed := totalDopamineUse (Model.activities s) 0 in
  let dopamineDiff :=
    DopamineReserveRefillPerMinuteInPercent - dopamineNeed in
  let newPool := Qmax 0 (Qmin 100 (Model.pool s + dopamineDiff)) in
  match nth_error (Model.data s) (length (Model.data s) - 1) with
  | None =>
      ({| Model.pool := newPool;
          Model.data := Model.data s;
          Model.activities := Model.activities s |},
       Some Js.TypeError)
  | Some last =>
      let minuteSinceStart := (minuteSinceStart last + 1)%Z in
      let newData :=
        Model.data s
        ++ [ {| minuteSinceStart := minuteSinceStart;
                daytime := minuteSinceStartToDaytime minuteSinceStart;
                dopamineLevel := dopamineNeed;
                reservePercent := newPool;
                activities := Model.activities s |} ] in
      let newData :=
        if (2 * 24 * 60 <? length newData)%nat
        then tl newData      (* newData.shift() *)
        else newData in
      ({| Model.pool := newPool;
          Model.data := newData;
          Model.activities := Model.activities s |},
       None)
  end.

Definition tick_state (s : State) : State := fst (tick s).

Definition initial : Model.System DataPoint := Model.initial initialData.
Definition step := Model.step tick_state.
Definition reachable := Model.reachable tick_state initialData.
Definition ticks := Model.ticks tick_state.

End Part002.

(** ** Values computed while rendering *)

Module Render.

Section Common.

Context {D : Type}.




End Common.

(** In the revision with [minuteSinceStart] the render reads the index of
    the newest sample; on an empty buffer that read throws. *)
Definition currentMinute (s : Part002.State) : Js.completion Z :=
  match nth_error (Model.data s) (length (Model.data s) - 1) with
  | Some last => Js.Return (Part002.minuteSinceStart last)
  | None => Js.Throw Js.TypeError
  end.

(** The [x] of the two [ReferenceLine]s, first the one written with
    [2*24*60], then the one with [1*24*60]. *)
Definition referenceLines (currentMinute : Z) : list Z :=
  [ (2 * 24 * 60 - Z.abs (Z.rem currentMinute (1 * 24 * 60)))%Z;
    (1 * 24 * 60 - Z.abs (Z.rem currentMinute (1 * 24 * 60)))%Z ].

End Render.

(** ** The numeric code in double precision

    The same text as [dopamineTurnover], [totalDopamineUse] and the first
    lines of the timer callback, with [number] read as binary64.  The
    literals are the decimal literals of the source; the parser rounds them
    to the nearest double as JavaScript does. *)

Module Double.

#[local] Set Warnings "-inexact-float".
Local Open Scope float_scope.

Definition DopamineReserveRefillPerMinuteInPercent : float := 0.1.
Definition DopamineBaseTurnOverPerMinuteInPercent : float := 0.05.

(** The [factor] column of [ACTIVITIES]. *)
Definition factor (activity : Activity) : float :=
  match activity with
  | sleep => -0.75
  | work => 1.5
  | play => 2.0
  | amphetamine => 10.0
  | chocolate => 1.5
  | sex => 2.0
  | excercise => 2.0
  | smoke => 2.5
  end.

(** [Math.max] and [Math.min] of two numbers: [NaN] if either is [NaN],
    and [+0] counts as larger than [-0]. *)
Definition Math_max (a b : float) : float :=
  if is_nan a || is_nan b then nan
  else if a <? b then b
  else if b <? a then a
  else if get_sign a then b else a.

Definition Math_min (a b : float) : float :=
  if is_nan a || is_nan b then nan
  else if a <? b then a
  else if b <? a then b
  else if get_sign a then a else b.

Definition dopamineTurnover (activity : Activity) (t : float) : float :=
  let baseline := DopamineBaseTurnOverPerMinuteInPercent in
  let factor := factor activity in
  baseline * factor.

Definition totalDopamineUse (activities : list Activity) (t : float)
  : float :=
  DopamineBaseTurnOverPerMinuteInPercent
  + fold_left (fun a b => a + b)
      (map (fun activity => dopamineTurnover activity 0) activities) 0.

(** [DopamineReserveRefillPerMinuteInPercent - totalDopamineUse(...)],
    the [dopamineDiff] of the callback and the [currentDopamineDiff] of the
    render. *)
Definition dopamineDiff (activities : list Activity) : float :=
  DopamineReserveRefillPerMinuteInPercent - totalDopamineUse activities 0.

(** The value the timer callback passes to [setPool]. *)
Definition newPool (pool : float) (activities : list Activity) : float :=
  let dopamineNeed := totalDopamineUse activities 0 in
  let dopamineDiff := DopamineReserveRefillPerMinuteInPercent - dopamineNeed in
  Math_max 0 (Math_min 100 (pool + dopamineDiff)).

(** The reserve after [n] ticks during which the activities stay the
    same. *)
Fixpoint ticks (n : nat) (pool : float) (activities : list Activity)
  : float :=
  match n with
  | O => pool
  | S n' => newPool (ticks n' pool activities) activities
  end.

End Double.

(** * Vocabulary of the statements

    Definitions the statements below use to speak about the program; none
    of them is part of the source. *)

(** The sum the specification speaks of: one term [f a] per member. *)
Fixpoint sum_over (f : Activity -> Q) (l : list Activity) : Q :=
  match l with
  | [] => 0
  | a :: l' => f a + sum_over f l'
  end.

(** [clamp x lo hi], in the words of the specification. *)
Definition clamp (x lo hi : Q) : Q := Qmax lo (Qmin hi x).

(** The sample a tick of src/Model/Model.tsx appends. *)
Definition ModelTsx_appended (s : ModelTsx.State) : ModelTsx.DataPoint :=
  {| ModelTsx.minuteOfDay := Z.of_nat (length (Model.data s));
     ModelTsx.dopamineLevel := totalDopamineUse (Model.activities s) 0;
     ModelTsx.reservePercent := Model.pool (ModelTsx.tick s);
     ModelTsx.activities := Model.activities s |}.

(** The sample a tick of the other revision appends after [last]. *)
Definition Part002_appended (s : Part002.State) (last : Part002.DataPoint)
  : Part002.DataPoint :=
  let m := (Part002.minuteSinceStart last + 1)%Z in
  {| Part002.minuteSinceStart := m;
     Part002.daytime := Part002.minuteSinceStartToDaytime m;
     Part002.dopamineLevel := totalDopamineUse (Model.activities s) 0;
     Part002.reservePercent := Model.pool (Part002.tick_state s);
     Part002.activities := Model.activities s |}.

(** [n] consecutive integers from [k]. *)
Fixpoint Zseq (k : Z) (n : nat) : list Z :=
  match n with
  | O => []
  | S n' => k :: Zseq (k + 1) n'
  end.

(** The error the specification names; nothing in the source raises it. *)
Definition UnknownActivity : Js.error := Js.JsError "UnknownActivity".

(** A check that no string occurs twice in a list. *)
Fixpoint distinct_strings (l : list string) : bool :=
  match l with
  | [] => true
  | x :: l' => negb (existsb (String.eqb x) l') && distinct_strings l'
  end.

(** The rational a finite double stands for: mantissa times a power of
    two, with its sign.  Infinities and [NaN] stand for none. *)
Definition Q_of_double (x : float) : option Q :=
  match Prim2SF x with
  | S754_zero _ => Some 0
  | S754_finite s m e =>
      Some ((if s then -1 else 1) * inject_Z (Zpos m) * Qpower 2 e)
  | S754_infinity _ => None
  | S754_nan => None
  end.

(** [within eps q x]: the double [x] is finite and at most [eps] away
    from the rational [q]. *)
Definition within (eps q : Q) (x : float) : bool :=
  match Q_of_double x with
  | Some q' => Qle_bool (q' - q) eps && Qle_bool (q - q') eps
  | None => false
  end.

(** A sum accumulated from left to right in double precision, starting
    from [acc], with one term [f a] per member. *)
Fixpoint Double_sum_from (f : Activity -> float) (acc : float)
    (l : list Activity) : float :=
  match l with
  | [] => acc
  | a :: l' => Double_sum_from f (PrimFloat.add acc (f a)) l'
  end.

(** [P] holds of [l] and of every list that extends [l] at its end by up
    to [fuel] activities without repeating one. *)
Fixpoint forall_duplicate_free (P : list Activity -> bool) (fuel : nat)
    (l : list Activity) : bool :=
  if P l then
    match fuel with
    | O => true
    | S fuel' =>
        forallb (fun a => if Model.active l a then true
                          else forall_duplicate_free P fuel' (l ++ [a]))
          Object_keys
    end
  else false.

(** The share [baseline * factor] of an activity counted in eightieths,
    and the exact consumption of a list in the same unit. *)
Definition share_units (activity : Activity) : Z :=
  match activity with
  | sleep => -3
  | work => 6
  | play => 8
  | amphetamine => 40
  | chocolate => 6
  | sex => 8
  | excercise => 8
  | smoke => 10
  end.

Fixpoint consumption_units (l : list Activity) : Z :=
  match l with
  | [] => 4
  | a :: l' => (share_units a + consumption_units l')%Z
  end.

(** * Properties *)

(** ** Consumption is the baseline plus one share per running activity *)

Lemma fold_left_Qplus_acc (l : list Q) (acc : Q) :
  fold_left (fun a b => a + b) l acc == acc + fold_left (fun a b => a + b) l 0.
Proof.
  revert acc; induction l as [|x l IH]; intros acc; simpl.
  - ring.
  - rewrite (IH (acc + x)), (IH (0 + x)). ring.
Qed.

Lemma reduce_is_sum_over (f : Activity -> Q) (l : list Activity) :
  fold_left (fun a b => a + b) (map f l) 0 == sum_over f l.
Proof.
  induction l as [|a l IH]; simpl.
  - reflexivity.
  - rewrite fold_left_Qplus_acc, IH. ring.
Qed.

Lemma sum_over_Permutation (f : Activity -> Q) (l l' : list Activity) :
  Permutation l l' -> sum_over f l == sum_over f l'.
Proof.
  induction 1 as [|a l l' _ IH|a b l|l l' l'' _ IH1 _ IH2]; simpl.
  - reflexivity.
  - rewrite IH. reflexivity.
  - ring.
  - rewrite IH1. exact IH2.
Qed.

Lemma totalDopamineUse_sum (activities : list Activity) (t : Q) :
  totalDopamineUse activities t
  == DopamineBaseTurnOverPerMinuteInPercent
     + sum_over
         (fun a => DopamineBaseTurnOverPerMinuteInPercent
                   * factor (ACTIVITIES a))
         activities.
Proof.
  unfold totalDopamineUse.
  rewrite (reduce_is_sum_over (fun a => dopamineTurnover a 0)).
  reflexivity.
Qed.

(** The simulated time passed to [totalDopamineUse] is never read. *)
Lemma totalDopamineUse_time (activities : list Activity) (t t' : Q) :
  totalDopamineUse activities t = totalDopamineUse activities t'.
Proof. reflexivity. Qed.

(** ** The reserve after a tick *)

Lemma clamp_bounds (x lo hi : Q) :
  lo <= hi -> lo <= clamp x lo hi <= hi.
Proof.
  intros Hlh. unfold clamp. split.
  - apply Q.le_max_l.
  - apply Q.max_lub; [exact Hlh | apply Q.le_min_l].
Qed.

(** Both revisions compute the new reserve with the same expression and
    hand the activities on untouched; what follows from that alone is
    proved once. *)
Section Reserve.

Context {D : Type}.
Variable tick : Model.State D -> Model.State D.

Hypothesis tick_pool : forall s,
  Model.pool (tick s)
  = Qmax 0 (Qmin 100
      (Model.pool s
       + (DopamineReserveRefillPerMinuteInPercent
          - totalDopamineUse (Model.activities s) 0))).

Hypothesis tick_activities : forall s,
  Model.activities (tick s) = Model.activities s.

Lemma tick_pool_clamp (s : Model.State D) :
  Model.pool (tick s)
  == clamp (Model.pool s + DopamineReserveRefillPerMinuteInPercent
            - totalDopamineUse (Model.activities s) 0) 0 100.
Proof.
  rewrite tick_pool. unfold clamp.
  apply Q.max_compat; [reflexivity|].
  apply Q.min_compat; [reflexivity|]. ring.
Qed.

Lemma tick_pool_bounds (s : Model.State D) :
  0 <= Model.pool (tick s) <= 100.
Proof.
  rewrite tick_pool_clamp. apply clamp_bounds. discriminate.
Qed.

Lemma ticks_activities (n : nat) (s : Model.State D) :
  Model.activities (Model.ticks tick n s) = Model.activities s.
Proof.
  induction n as [|n IH]; simpl; [reflexivity|].
  rewrite tick_activities. exact IH.
Qed.

Lemma ticks_pool_bounds (n : nat) (s : Model.State D) :
  0 <= Model.pool s <= 100 -> 0 <= Model.pool (Model.ticks tick n s) <= 100.
Proof.
  destruct n as [|n]; simpl; [tauto|]. intros _. apply tick_pool_bounds.
Qed.

(** A tick with consumption above the refill rate cannot raise a reserve
    that is not negative. *)
Lemma tick_pool_nonincreasing (s : Model.State D) :
  DopamineReserveRefillPerMinuteInPercent
    <= totalDopamineUse (Model.activities s) 0 ->
  0 <= Model.pool s ->
  Model.pool (tick s) <= Model.pool s.
Proof.
  intros Huse Hpool. rewrite tick_pool.
  apply Q.max_lub; [exact Hpool|].
  eapply Qle_trans; [apply Q.le_min_r|]. lra.
Qed.

End Reserve.

Lemma ModelTsx_tick_pool (s : ModelTsx.State) :
  Model.pool (ModelTsx.tick s)
  = Qmax 0 (Qmin 100
      (Model.pool s
       + (DopamineReserveRefillPerMinuteInPercent
          - totalDopamineUse (Model.activities s) 0))).
Proof. reflexivity. Qed.

Lemma ModelTsx_tick_activities (s : ModelTsx.State) :
  Model.activities (ModelTsx.tick s) = Model.activities s.
Proof. reflexivity. Qed.

Lemma Part002_tick_pool (s : Part002.State) :
  Model.pool (Part002.tick_state s)
  = Qmax 0 (Qmin 100
      (Model.pool s
       + (DopamineReserveRefillPerMinuteInPercent
          - totalDopamineUse (Model.activities s) 0))).
Proof.
  unfold Part002.tick_state, Part002.tick.
  destruct (nth_error _ _); reflexivity.
Qed.

Lemma Part002_tick_activities (s : Part002.State) :
  Model.activities (Part002.tick_state s) = Model.activities s.
Proof.
  unfold Part002.tick_state, Part002.tick.
  destruct (nth_error _ _); reflexivity.
Qed.

(** C2.  In both revisions, for every prior reserve in [0, 100] and every
    list of running activities, the reserve after one tick is
    [clamp (reserve + refillRate - consumption) 0 100] and lies in
    [0, 100]. *)
Theorem tick_reserve_within_0_100 :
  (forall s : ModelTsx.State,
      0 <= Model.pool s <= 100 ->
      Model.pool (ModelTsx.tick s)
      == clamp (Model.pool s + DopamineReserveRefillPerMinuteInPercent
                - totalDopamineUse (Model.activities s) 0) 0 100
      /\ 0 <= Model.pool (ModelTsx.tick s) <= 100)
  /\
  (forall s : Part002.State,
      0 <= Model.pool s <= 100 ->
      Model.pool (Part002.tick_state s)
      == clamp (Model.pool s + DopamineReserveRefillPerMinuteInPercent
                - totalDopamineUse (Model.activities s) 0) 0 100
      /\ 0 <= Model.pool (Part002.tick_state s) <= 100).
Proof.
  split; intros s _; split.
  - apply (tick_pool_clamp _ ModelTsx_tick_pool).
  - apply (tick_pool_bounds _ ModelTsx_tick_pool).
  - apply (tick_pool_clamp _ Part002_tick_pool).
  - apply (tick_pool_bounds _ Part002_tick_pool).
Qed.

Lemma tick_reserve_within_0_100_witness :
  0 <= Model.pool
         (ModelTsx.tick
            {| Model.pool := 99.98; Model.data := [];
               Model.activities := [sleep] |}) <= 100
  /\ 0 <= Model.pool
            (Part002.tick_state
               {| Model.pool := 0.3; Model.data := [];
                  Model.activities := [amphetamine; smoke] |}) <= 100.
Proof.
  split.
  - apply (proj1 tick_reserve_within_0_100
             {| Model.pool := 99.98; Model.data := [];
                Model.activities := [sleep] |}).
    simpl. split; discriminate.
  - apply (proj2 tick_reserve_within_0_100
             {| Model.pool := 0.3; Model.data := [];
                Model.activities := [amphetamine; smoke] |}).
    simpl. split; discriminate.
Defined.

(** ** The two numeric scenarios *)

(** C6.  With reserve 50 and no running activity (refill rate 0.1, baseline
    0.05), one tick computes consumption 0.05 and difference 0.05, and
    leaves the reserve at 50.05, in both revisions and whatever the
    buffer holds. *)
Theorem tick_from_50_idle :
  DopamineReserveRefillPerMinuteInPercent == 0.1
  /\ DopamineBaseTurnOverPerMinuteInPercent == 0.05
  /\ totalDopamineUse [] 0 == 0.05
  /\ DopamineReserveRefillPerMinuteInPercent - totalDopamineUse [] 0 == 0.05
  /\ (forall data : list ModelTsx.DataPoint,
        Model.pool
          (ModelTsx.tick
             {| Model.pool := 50; Model.data := data;
                Model.activities := [] |}) == 50.05)
  /\ (forall data : list Part002.DataPoint,
        Model.pool
          (Part002.tick_state
             {| Model.pool := 50; Model.data := data;
                Model.activities := [] |}) == 50.05).
Proof.
  repeat split; try reflexivity.
  intros data. rewrite Part002_tick_pool. reflexivity.
Qed.

(** ** The rolling buffer *)

(** What appending one sample and shifting when over capacity does to a
    list; both timer callbacks contain this text. *)
Section AppendShift.

Context {A : Type}.
Variables (l : list A) (x : A).

Let newData := l ++ [x].
Let shifted :=
  if (2 * 24 * 60 <? length newData)%nat then tl newData else newData.

Lemma append_shift_below :
  (length l < 2880)%nat -> shifted = l ++ [x].
Proof.
  intros Hlen. unfold shifted, newData.
  destruct (Nat.ltb_spec (2 * 24 * 60) (length (l ++ [x]))) as [H|H];
    [|reflexivity].
  rewrite length_app in H. simpl length in H. lia.
Qed.

Lemma append_shift_full :
  (2880 <= length l)%nat -> shifted = tl l ++ [x].
Proof.
  intros Hlen. unfold shifted, newData.
  destruct (Nat.ltb_spec (2 * 24 * 60) (length (l ++ [x]))) as [H|H].
  - destruct l as [|y l']; [simpl in Hlen; lia | reflexivity].
  - rewrite length_app in H. simpl length in H. lia.
Qed.

Lemma append_shift_length :
  (length l <= 2880)%nat -> (length shifted <= 2880)%nat.
Proof.
  intros Hlen.
  destruct (Nat.eq_dec (length l) 2880) as [Hfull|Hnot].
  - rewrite append_shift_full by lia.
    rewrite length_app. simpl length.
    destruct l; simpl in *; lia.
  - rewrite append_shift_below by lia.
    rewrite length_app. simpl length. lia.
Qed.

Lemma append_shift_length_full :
  length l = 2880%nat -> length shifted = 2880%nat.
Proof.
  intros Hlen. rewrite append_shift_full by lia.
  rewrite length_app. simpl length.
  destruct l; simpl in *; lia.
Qed.

End AppendShift.

Lemma ModelTsx_tick_data_full (s : ModelTsx.State) :
  (2880 <= length (Model.data s))%nat ->
  Model.data (ModelTsx.tick s) = tl (Model.data s) ++ [ModelTsx_appended s].
Proof. intros H. exact (append_shift_full _ _ H). Qed.

Lemma ModelTsx_tick_data_below (s : ModelTsx.State) :
  (length (Model.data s) < 2880)%nat ->
  Model.data (ModelTsx.tick s) = Model.data s ++ [ModelTsx_appended s].
Proof. intros H. exact (append_shift_below _ _ H). Qed.

Lemma ModelTsx_tick_length (s : ModelTsx.State) :
  (length (Model.data s) <= 2880)%nat ->
  (length (Model.data (ModelTsx.tick s)) <= 2880)%nat.
Proof. intros H. exact (append_shift_length _ _ H). Qed.

Lemma ModelTsx_tick_length_full (s : ModelTsx.State) :
  length (Model.data s) = 2880%nat ->
  length (Model.data (ModelTsx.tick s)) = 2880%nat.
Proof. intros H. exact (append_shift_length_full _ _ H). Qed.

(** [data[data.length - 1]] is defined exactly when the buffer is not
    empty. *)
Lemma last_sample_defined {A : Type} (l : list A) :
  l <> [] -> exists last, nth_error l (length l - 1) = Some last.
Proof.
  intros Hne. destruct (nth_error l (length l - 1)) as [y|] eqn:E.
  - exists y. reflexivity.
  - apply nth_error_None in E. destruct l; [congruence | simpl in E; lia].
Qed.

Lemma Part002_tick_some (s : Part002.State) (last : Part002.DataPoint) :
  nth_error (Model.data s) (length (Model.data s) - 1) = Some last ->
  snd (Part002.tick s) = None
  /\ Model.data (Part002.tick_state s)
     = (let newData := Model.data s ++ [Part002_appended s last] in
        if (2 * 24 * 60 <? length newData)%nat then tl newData else newData).
Proof.
  intros E. unfold Part002_appended, Part002.tick_state, Part002.tick.
  rewrite E. split; reflexivity.
Qed.

Lemma Part002_tick_empty (s : Part002.State) :
  Model.data s = [] ->
  snd (Part002.tick s) = Some Js.TypeError
  /\ Model.data (Part002.tick_state s) = [].
Proof.
  intros E. unfold Part002.tick_state, Part002.tick.
  rewrite E. split; reflexivity.
Qed.

Lemma Part002_tick_data_full (s : Part002.State) :
  (2880 <= length (Model.data s))%nat ->
  exists last,
    nth_error (Model.data s) (length (Model.data s) - 1) = Some last
    /\ snd (Part002.tick s) = None
    /\ Model.data (Part002.tick_state s)
       = tl (Model.data s) ++ [Part002_appended s last].
Proof.
  intros H.
  destruct (last_sample_defined (Model.data s)) as [last E].
  { intros E. rewrite E in H. simpl in H. lia. }
  exists last. split; [exact E|].
  destruct (Part002_tick_some s last E) as [Hsnd Hdata].
  split; [exact Hsnd|]. rewrite Hdata.
  exact (append_shift_full _ _ H).
Qed.

Lemma Part002_tick_length (s : Part002.State) :
  (length (Model.data s) <= 2880)%nat ->
  (length (Model.data (Part002.tick_state s)) <= 2880)%nat.
Proof.
  intros H. destruct (Model.data s) as [|d l] eqn:E.
  - destruct (Part002_tick_empty s E) as [_ ->]. simpl. lia.
  - destruct (last_sample_defined (Model.data s)) as [last El].
    { rewrite E. discriminate. }
    destruct (Part002_tick_some s last El) as [_ ->].
    apply append_shift_length. rewrite E. exact H.
Qed.

Lemma Part002_tick_length_full (s : Part002.State) :
  length (Model.data s) = 2880%nat ->
  length (Model.data (Part002.tick_state s)) = 2880%nat.
Proof.
  intros H.
  destruct (Part002_tick_data_full s) as (last & _ & _ & ->); [lia|].
  rewrite length_app. simpl length.
  destruct (Model.data s); simpl in *; lia.
Qed.

Lemma ModelTsx_initialData_length :
  length ModelTsx.initialData = 2880%nat.
Proof.
  unfold ModelTsx.initialData. rewrite length_map, length_seq. reflexivity.
Qed.

Lemma Part002_initialData_length :
  length Part002.initialData = 2880%nat.
Proof.
  unfold Part002.initialData. rewrite length_map, length_seq. reflexivity.
Qed.

(** C3.  In both revisions, a tick on a buffer of at most 2880 samples
    leaves a buffer of at most 2880 samples.  On a buffer of exactly 2880
    samples it drops the first sample and nothing else, keeps the others in
    their order and puts last the sample it has just built: the consumption,
    the new reserve and the running activities of this tick, numbered with
    the buffer length in src/Model/Model.tsx and one above the last sample
    in the other revision.  Below 2880 samples the same sample is appended
    and nothing is dropped. *)
Theorem buffer_append_evicts_oldest :
  (forall s : ModelTsx.State,
      (length (Model.data s) <= 2880)%nat ->
      (length (Model.data (ModelTsx.tick s)) <= 2880)%nat
      /\ (length (Model.data s) = 2880%nat ->
          exists oldest rest,
            Model.data s = oldest :: rest
            /\ Model.data (ModelTsx.tick s)
               = rest
                 ++ [ {| ModelTsx.minuteOfDay := 2880;
                         ModelTsx.dopamineLevel :=
                           totalDopamineUse (Model.activities s) 0;
                         ModelTsx.reservePercent :=
                           Model.pool (ModelTsx.tick s);
                         ModelTsx.activities := Model.activities s |} ])
      /\ ((length (Model.data s) < 2880)%nat ->
          Model.data (ModelTsx.tick s)
          = Model.data s
            ++ [ {| ModelTsx.minuteOfDay :=
                      Z.of_nat (length (Model.data s));
                    ModelTsx.dopamineLevel :=
                      totalDopamineUse (Model.activities s) 0;
                    ModelTsx.reservePercent := Model.pool (ModelTsx.tick s);
                    ModelTsx.activities := Model.activities s |} ]))
  /\
  (forall s : Part002.State,
      (length (Model.data s) <= 2880)%nat ->
      (length (Model.data (Part002.tick_state s)) <= 2880)%nat
      /\ (length (Model.data s) = 2880%nat ->
          exists oldest rest last,
            Model.data s = oldest :: rest
            /\ nth_error (Model.data s) 2879 = Some last
            /\ snd (Part002.tick s) = None
            /\ Model.data (Part002.tick_state s)
               = rest
                 ++ [ {| Part002.minuteSinceStart :=
                           Part002.minuteSinceStart last + 1;
                         Part002.daytime :=
                           Part002.minuteSinceStartToDaytime
                             (Part002.minuteSinceStart last + 1);
                         Part002.dopamineLevel :=
                           totalDopamineUse (Model.activities s) 0;
                         Part002.reservePercent :=
                           Model.pool (Part002.tick_state s);
                         Part002.activities := Model.activities s |} ])
      /\ (forall last,
            (length (Model.data s) < 2880)%nat ->
            nth_error (Model.data s) (length (Model.data s) - 1)
            = Some last ->
            snd (Part002.tick s) = None
            /\ Model.data (Part002.tick_state s)
               = Model.data s
                 ++ [ {| Part002.minuteSinceStart :=
                           Part002.minuteSinceStart last + 1;
                         Part002.daytime :=
                           Part002.minuteSinceStartToDaytime
                             (Part002.minuteSinceStart last + 1);
                         Part002.dopamineLevel :=
                           totalDopamineUse (Model.activities s) 0;
                         Part002.reservePercent :=
                           Model.pool (Part002.tick_state s);
                         Part002.activities := Model.activities s |} ])).
Proof.
  split; intros s Hlen; (split; [|split]).
  - apply ModelTsx_tick_length, Hlen.
  - intros Hfull. rewrite ModelTsx_tick_data_full by lia.
    destruct (Model.data s) as [|oldest rest] eqn:E; [discriminate Hfull|].
    exists oldest, rest. split; [reflexivity|].
    unfold ModelTsx_appended. rewrite E, Hfull. reflexivity.
  - intros Hlt. apply ModelTsx_tick_data_below, Hlt.
  - apply Part002_tick_length, Hlen.
  - intros Hfull.
    destruct (Part002_tick_data_full s) as (last & El & Hsnd & ->); [lia|].
    rewrite Hfull in El. change (2880 - 1)%nat with 2879%nat in El.
    destruct (Model.data s) as [|oldest rest] eqn:E; [discriminate Hfull|].
    exists oldest, rest, last.
    split; [reflexivity|]. split; [exact El|]. split; [exact Hsnd|].
    reflexivity.
  - intros last Hlt El.
    destruct (Part002_tick_some s last El) as [Hsnd Hdata].
    split; [exact Hsnd|]. rewrite Hdata.
    exact (append_shift_below _ _ Hlt).
Qed.

Lemma buffer_append_evicts_oldest_witness :
  ((length ModelTsx.initialData <= 2880)%nat
   /\ length ModelTsx.initialData = 2880%nat
   /\ exists oldest rest,
        ModelTsx.initialData = oldest :: rest
        /\ Model.data (ModelTsx.tick (Model.state ModelTsx.initial))
           = rest
             ++ [ {| ModelTsx.minuteOfDay := 2880;
                     ModelTsx.dopamineLevel := totalDopamineUse [] 0;
                     ModelTsx.reservePercent :=
                       Model.pool
                         (ModelTsx.tick (Model.state ModelTsx.initial));
                     ModelTsx.activities := [] |} ])
  /\ ((length Part002.initialData <= 2880)%nat
      /\ length Part002.initialData = 2880%nat
      /\ exists oldest rest,
           Part002.initialData = oldest :: rest
           /\ Model.data (Part002.tick_state (Model.state Part002.initial))
              = rest
                ++ [ {| Part002.minuteSinceStart := 2880;
                        Part002.daytime := "0:00";
                        Part002.dopamineLevel := totalDopamineUse [] 0;
                        Part002.reservePercent :=
                          Model.pool
                            (Part002.tick_state
                               (Model.state Part002.initial));
                        Part002.activities := [] |} ])
  /\ ((length (@nil ModelTsx.DataPoint) <= 2880)%nat
      /\ (length (@nil ModelTsx.DataPoint) < 2880)%nat
      /\ Model.data
           (ModelTsx.tick
              {| Model.pool := 50; Model.data := [];
                 Model.activities := [work] |})
         = [ {| ModelTsx.minuteOfDay := 0;
                ModelTsx.dopamineLevel := totalDopamineUse [work] 0;
                ModelTsx.reservePercent :=
                  Model.pool
                    (ModelTsx.tick
                       {| Model.pool := 50; Model.data := [];
                          Model.activities := [work] |});
                ModelTsx.activities := [work] |} ]).
Proof.
  assert (H1 : (length ModelTsx.initialData <= 2880)%nat)
    by (rewrite ModelTsx_initialData_length; apply le_n).
  assert (H2 : (length Part002.initialData <= 2880)%nat)
    by (rewrite Part002_initialData_length; apply le_n).
  assert (H3 : (length (@nil ModelTsx.DataPoint) <= 2880)%nat)
    by (apply Nat.leb_le; reflexivity).
  assert (H4 : (length (@nil ModelTsx.DataPoint) < 2880)%nat)
    by (apply Nat.ltb_lt; reflexivity).
  split; [|split].
  - split; [exact H1|]. split; [exact ModelTsx_initialData_length|].
    exact (proj1 (proj2 (proj1 buffer_append_evicts_oldest
                           (Model.state ModelTsx.initial) H1))
             ModelTsx_initialData_length).
  - split; [exact H2|]. split; [exact Part002_initialData_length|].
    destruct (proj1 (proj2 (proj2 buffer_append_evicts_oldest
                              (Model.state Part002.initial) H2))
                Part002_initialData_length)
      as (oldest & rest & last & Hd & Hl & _ & Hd').
    exists oldest, rest. split; [exact Hd|]. rewrite Hd'.
    assert (E : Some last
                = Some {| Part002.minuteSinceStart := 2879;
                          Part002.daytime := "23:59";
                          Part002.dopamineLevel := 0.05;
                          Part002.reservePercent := 50;
                          Part002.activities := [] |}).
    { rewrite <- Hl. vm_compute. reflexivity. }
    injection E as ->. reflexivity.
  - split; [exact H3|]. split; [exact H4|].
    exact (proj2 (proj2 (proj1 buffer_append_evicts_oldest
                           {| Model.pool := 50; Model.data := [];
                              Model.activities := [work] |} H3)) H4).
Defined.

(** ** Reachable states *)

Lemma Activity_eqb_eq (a b : Activity) : Activity_eqb a b = true <-> a = b.
Proof. destruct a, b; simpl; split; congruence. Qed.

Lemma active_In (activities : list Activity) (activity : Activity) :
  Model.active activities activity = true <-> In activity activities.
Proof.
  unfold Model.active. rewrite existsb_exists. split.
  - intros (x & Hin & Heq). apply Activity_eqb_eq in Heq. now subst.
  - intros Hin. exists activity. split; [exact Hin|]. now apply Activity_eqb_eq.
Qed.

Lemma toggle_off_filter (activities : list Activity) (activity a : Activity) :
  In a (Model.onActivityToggle activities activity false)
  <-> In a activities /\ a <> activity.
Proof.
  unfold Model.onActivityToggle. rewrite filter_In, negb_true_iff.
  split; intros [Hin Hne]; split; try exact Hin.
  - intros ->. destruct (Activity_eqb_eq activity activity) as [_ H].
    rewrite H in Hne; [discriminate | reflexivity].
  - destruct (Activity_eqb a activity) eqn:E; [|reflexivity].
    apply Activity_eqb_eq in E. contradiction.
Qed.

Lemma In_take {A : Type} (n : nat) (l : list A) (x : A) :
  In x (firstn n l) -> In x l.
Proof.
  intros H. rewrite <- (firstn_skipn n l). apply in_or_app. now left.
Qed.

Lemma In_drop {A : Type} (n : nat) (l : list A) (x : A) :
  In x (skipn n l) -> In x l.
Proof.
  intros H. rewrite <- (firstn_skipn n l). apply in_or_app. now right.
Qed.

Section Reachability.

Context {D : Type}.
Variable tick : Model.State D -> Model.State D.
Variable initialData : list D.

Hypothesis tick_activities : forall s,
  Model.activities (tick s) = Model.activities s.

(** Clicks and timeouts leave the buffer alone, so a property of the
    buffer that the seed has and a tick keeps holds in every reachable
    state. *)
Lemma reachable_data (P : list D -> Prop) :
  P initialData ->
  (forall s, P (Model.data s) -> P (Model.data (tick s))) ->
  forall sys, Model.reachable tick initialData sys ->
              P (Model.data (Model.state sys)).
Proof.
  intros Hinit Htick sys Hreach.
  induction Hreach as [|sys e _ IH]; [exact Hinit|].
  destruct e as [|activity|n]; simpl.
  - apply Htick, IH.
  - unfold Model.onClick.
    destruct (Qle_bool 1 (Model.pool (Model.state sys))); exact IH.
  - unfold Model.onTimeout.
    destruct (nth_error (Model.timeouts sys) n); exact IH.
Qed.

(** The switch turns an activity on only when it is not running, so the
    list of running activities never holds an id twice. *)
Lemma reachable_NoDup (sys : Model.System D) :
  Model.reachable tick initialData sys ->
  NoDup (Model.activities (Model.state sys))
  /\ Forall (fun t => NoDup (Model.closure_activities t))
       (Model.timeouts sys).
Proof.
  induction 1 as [|sys e _ [IHa IHt]].
  - split; constructor.
  - destruct e as [|activity|n]; simpl.
    + rewrite tick_activities. split; assumption.
    + unfold Model.onClick.
      destruct (Qle_bool 1 (Model.pool (Model.state sys)));
        [|split; assumption].
      destruct (Model.active (Model.activities (Model.state sys)) activity)
        eqn:E; simpl.
      * split; [|exact IHt]. apply NoDup_filter, IHa.
      * split.
        -- apply NoDup_app; [exact IHa | repeat constructor; intros [] |].
           intros a Hin [<-|[]]. apply active_In in Hin. congruence.
        -- apply Forall_app. split; [exact IHt|]. repeat constructor.
           exact IHa.
    + unfold Model.onTimeout.
      destruct (nth_error (Model.timeouts sys) n) as [t|] eqn:E;
        [|split; assumption].
      simpl. split.
      * apply NoDup_filter.
        rewrite Forall_forall in IHt. apply IHt.
        eapply nth_error_In, E.
      * apply Forall_app. split.
        -- rewrite Forall_forall in *. intros x Hx.
           apply IHt. exact (In_take n _ _ Hx).
        -- rewrite Forall_forall in *. intros x Hx.
           apply IHt. exact (In_drop (S n) _ _ Hx).
Qed.

(** Clicks and timeouts leave the reserve alone as well. *)
Lemma reachable_pool :
  (forall s, 0 <= Model.pool (tick s) <= 100) ->
  forall sys, Model.reachable tick initialData sys ->
              0 <= Model.pool (Model.state sys) <= 100.
Proof.
  intros Htick sys Hreach.
  induction Hreach as [|sys e _ IH]; [split; discriminate|].
  destruct e as [|activity|n]; simpl.
  - apply Htick.
  - unfold Model.onClick.
    destruct (Qle_bool 1 (Model.pool (Model.state sys))); exact IH.
  - unfold Model.onTimeout.
    destruct (nth_error (Model.timeouts sys) n); exact IH.
Qed.

End Reachability.

(** The reserve of every reachable state is in [0, 100], in both
    revisions. *)
Lemma reachable_reserve_within_0_100 :
  (forall sys, ModelTsx.reachable sys ->
               0 <= Model.pool (Model.state sys) <= 100)
  /\ (forall sys, Part002.reachable sys ->
                  0 <= Model.pool (Model.state sys) <= 100).
Proof.
  split; apply reachable_pool.
  - apply (tick_pool_bounds _ ModelTsx_tick_pool).
  - apply (tick_pool_bounds _ Part002_tick_pool).
Qed.

(** C9.  In both revisions the buffer is seeded with exactly 2880 samples,
    each with [reservePercent] 50, [dopamineLevel] 0.05 and no activities;
    in every reachable state the buffer holds exactly 2880 samples, and a
    tick from such a state leaves exactly 2880 again. *)
Theorem buffer_length_always_2880 :
  (length ModelTsx.initialData = 2880%nat
   /\ Forall (fun d => ModelTsx.reservePercent d = 50
                       /\ ModelTsx.dopamineLevel d = 0.05
                       /\ ModelTsx.activities d = [])
        ModelTsx.initialData
   /\ forall sys, ModelTsx.reachable sys ->
        length (Model.data (Model.state sys)) = 2880%nat
        /\ length (Model.data (ModelTsx.tick (Model.state sys))) = 2880%nat)
  /\
  (length Part002.initialData = 2880%nat
   /\ Forall (fun d => Part002.reservePercent d = 50
                       /\ Part002.dopamineLevel d = 0.05
                       /\ Part002.activities d = [])
        Part002.initialData
   /\ forall sys, Part002.reachable sys ->
        length (Model.data (Model.state sys)) = 2880%nat
        /\ length (Model.data (Part002.tick_state (Model.state sys)))
           = 2880%nat).
Proof.
  split; (split; [|split]).
  - exact ModelTsx_initialData_length.
  - apply Forall_forall. intros d Hin.
    apply in_map_iff in Hin. destruct Hin as (i & <- & _).
    repeat split.
  - intros sys Hreach.
    assert (H : length (Model.data (Model.state sys)) = 2880%nat).
    { exact (reachable_data ModelTsx.tick ModelTsx.initialData
               (fun d => length d = 2880%nat)
               ModelTsx_initialData_length ModelTsx_tick_length_full sys Hreach). }
    split; [exact H | apply ModelTsx_tick_length_full, H].
  - exact Part002_initialData_length.
  - apply Forall_forall. intros d Hin.
    apply in_map_iff in Hin. destruct Hin as (i & <- & _).
    repeat split.
  - intros sys Hreach.
    assert (H : length (Model.data (Model.state sys)) = 2880%nat).
    { exact (reachable_data Part002.tick_state Part002.initialData
               (fun d => length d = 2880%nat)
               Part002_initialData_length Part002_tick_length_full sys Hreach). }
    split; [exact H | apply Part002_tick_length_full, H].
Qed.

Lemma buffer_length_always_2880_witness :
  (ModelTsx.reachable
     (Model.run ModelTsx.tick ModelTsx.initial
        [Model.Click work; Model.Tick; Model.Expire 0; Model.Tick])
   /\ length (Model.data
                (Model.state
                   (Model.run ModelTsx.tick ModelTsx.initial
                      [Model.Click work; Model.Tick; Model.Expire 0;
                       Model.Tick])))
      = 2880%nat)
  /\ (Part002.reachable
        (Model.run Part002.tick_state Part002.initial
           [Model.Click work; Model.Tick; Model.Expire 0; Model.Tick])
      /\ length (Model.data
                   (Model.state
                      (Model.run Part002.tick_state Part002.initial
                         [Model.Click work; Model.Tick; Model.Expire 0;
                          Model.Tick])))
         = 2880%nat).
Proof.
  assert (R1 : ModelTsx.reachable
                 (Model.run ModelTsx.tick ModelTsx.initial
                    [Model.Click work; Model.Tick; Model.Expire 0;
                     Model.Tick])).
  { repeat apply Model.reachable_step. apply Model.reachable_initial. }
  assert (R2 : Part002.reachable
                 (Model.run Part002.tick_state Part002.initial
                    [Model.Click work; Model.Tick; Model.Expire 0;
                     Model.Tick])).
  { repeat apply Model.reachable_step. apply Model.reachable_initial. }
  split.
  - split; [exact R1|].
    exact (proj1 (proj2 (proj2 (proj1 buffer_length_always_2880)) _ R1)).
  - split; [exact R2|].
    exact (proj1 (proj2 (proj2 (proj2 buffer_length_always_2880)) _ R2)).
Defined.

(** C10.  In both revisions a tick leaves the list of running activities
    as it was, whatever the state; as a step of the system it also leaves
    the pending timeouts as they were.  Only [pool] and [data] change. *)
Theorem tick_preserves_activities :
  (forall s : ModelTsx.State,
      Model.activities (ModelTsx.tick s) = Model.activities s)
  /\ (forall s : Part002.State,
        Model.activities (fst (Part002.tick s)) = Model.activities s)
  /\ (forall sys : Model.System ModelTsx.DataPoint,
        Model.activities (Model.state (ModelTsx.step sys Model.Tick))
        = Model.activities (Model.state sys)
        /\ Model.timeouts (ModelTsx.step sys Model.Tick)
           = Model.timeouts sys)
  /\ (forall sys : Model.System Part002.DataPoint,
        Model.activities (Model.state (Part002.step sys Model.Tick))
        = Model.activities (Model.state sys)
        /\ Model.timeouts (Part002.step sys Model.Tick)
           = Model.timeouts sys).
Proof.
  split; [exact ModelTsx_tick_activities|].
  split; [exact Part002_tick_activities|].
  split; intros sys; split; try reflexivity.
  apply Part002_tick_activities.
Qed.

(** ** Sequence indices of the samples *)

Lemma Zseq_length (k : Z) (n : nat) : length (Zseq k n) = n.
Proof. revert k; induction n; intros k; simpl; congruence. Qed.

Lemma Zseq_snoc (k : Z) (n : nat) :
  Zseq k (S n) = Zseq k n ++ [(k + Z.of_nat n)%Z].
Proof.
  revert k; induction n as [|n IH]; intros k.
  - simpl. now rewrite Z.add_0_r.
  - change (Zseq k (S (S n))) with (k :: Zseq (k + 1) (S n)).
    rewrite IH. simpl. do 3 f_equal. lia.
Qed.

Lemma Zseq_In (k : Z) (n : nat) (x : Z) :
  In x (Zseq k n) <-> (k <= x < k + Z.of_nat n)%Z.
Proof.
  revert k; induction n as [|n IH]; intros k.
  - simpl. lia.
  - change (In x (Zseq k (S n))) with (k = x \/ In x (Zseq (k + 1) n)).
    rewrite IH. lia.
Qed.

Lemma Zseq_sorted (k : Z) (n : nat) : StronglySorted Z.lt (Zseq k n).
Proof.
  revert k; induction n as [|n IH]; intros k; simpl; constructor.
  - apply IH.
  - apply Forall_forall. intros x Hin. apply Zseq_In in Hin. lia.
Qed.

Lemma Zseq_nth_error (k : Z) (n i : nat) :
  (i < n)%nat -> nth_error (Zseq k n) i = Some (k + Z.of_nat i)%Z.
Proof.
  revert k i; induction n as [|n IH]; intros k i Hi; [lia|].
  destruct i as [|i]; simpl.
  - now rewrite Z.add_0_r.
  - rewrite IH by lia. f_equal. lia.
Qed.

Lemma Zseq_of_seq (a n : nat) :
  map Z.of_nat (seq a n) = Zseq (Z.of_nat a) n.
Proof.
  revert a; induction n as [|n IH]; intros a; simpl; [reflexivity|].
  rewrite IH. do 2 f_equal. lia.
Qed.

Lemma Zseq_shift (k : Z) (n : nat) :
  (0 < n)%nat ->
  tl (Zseq k n) ++ [(k + Z.of_nat n)%Z] = Zseq (k + 1) n.
Proof.
  destruct n as [|n]; [lia|]. intros _.
  rewrite (Zseq_snoc (k + 1) n). simpl tl. do 2 f_equal. lia.
Qed.

Lemma Part002_initialData_indices :
  map Part002.minuteSinceStart Part002.initialData = Zseq 0 2880.
Proof.
  unfold Part002.initialData. rewrite map_map. simpl Part002.minuteSinceStart.
  exact (Zseq_of_seq 0 MaxDataLength).
Qed.

Lemma map_tail {A B : Type} (f : A -> B) (l : list A) :
  map f (tl l) = tl (map f l).
Proof. destruct l; reflexivity. Qed.

(** A tick on a buffer of 2880 consecutive indices from [k] leaves 2880
    consecutive indices from [k + 1]. *)
Lemma Part002_tick_indices (s : Part002.State) (k : Z) :
  map Part002.minuteSinceStart (Model.data s) = Zseq k 2880 ->
  map Part002.minuteSinceStart (Model.data (Part002.tick_state s))
  = Zseq (k + 1) 2880.
Proof.
  intros Hidx.
  assert (Hlen : length (Model.data s) = 2880%nat).
  { rewrite <- (length_map Part002.minuteSinceStart), Hidx.
    apply Zseq_length. }
  destruct (Part002_tick_data_full s) as (last & Hlast & _ & ->); [lia|].
  apply (map_nth_error Part002.minuteSinceStart) in Hlast.
  rewrite Hidx, Hlen, Zseq_nth_error in Hlast by lia.
  injection Hlast as Hlast.
  rewrite map_app, map_tail, Hidx.
  rewrite <- (Zseq_shift k 2880) by lia.
  f_equal. cbn [map Part002_appended Part002.minuteSinceStart].
  rewrite <- Hlast. f_equal.
  change (Z.of_nat 2880) with 2880%Z. lia.
Qed.

Lemma Part002_reachable_indices (sys : Model.System Part002.DataPoint) :
  Part002.reachable sys ->
  exists k : Z,
    (0 <= k)%Z
    /\ map Part002.minuteSinceStart (Model.data (Model.state sys))
       = Zseq k 2880.
Proof.
  apply (reachable_data Part002.tick_state Part002.initialData
           (fun d => exists k : Z,
                (0 <= k)%Z /\ map Part002.minuteSinceStart d = Zseq k 2880)).
  - exists 0%Z. split; [lia | exact Part002_initialData_indices].
  - intros s (k & Hk & Hidx). exists (k + 1)%Z.
    split; [lia | apply Part002_tick_indices, Hidx].
Qed.

(** In the revision with [minuteSinceStart], every reachable buffer holds
    2880 consecutive, strictly increasing indices; a tick throws nothing,
    drops the oldest sample (index [k]), keeps the rest in order and appends
    a sample with index [k + 2880], above every index seen before. *)
Lemma Part002_sequence_index_increases
    (sys : Model.System Part002.DataPoint)
    (Hreach : Part002.reachable sys) :
  let d := Model.data (Model.state sys) in
  let d' := Model.data (Part002.tick_state (Model.state sys)) in
  exists (k : Z) oldest rest newest,
    d = oldest :: rest
    /\ Part002.minuteSinceStart oldest = k
    /\ StronglySorted Z.lt (map Part002.minuteSinceStart d)
    /\ snd (Part002.tick (Model.state sys)) = None
    /\ d' = rest ++ [newest]
    /\ length d' = 2880%nat
    /\ Part002.minuteSinceStart newest = (k + 2880)%Z
    /\ Forall (fun x => (Part002.minuteSinceStart x
                         < Part002.minuteSinceStart newest)%Z) d
    /\ ~ In k (map Part002.minuteSinceStart d')
    /\ StronglySorted Z.lt (map Part002.minuteSinceStart d').
Proof.
  intros d d'. subst d d'.
  destruct (Part002_reachable_indices sys Hreach) as (k & _ & Hidx).
  pose proof (Part002_tick_indices _ _ Hidx) as Hidx'.
  set (s := Model.state sys) in *.
  assert (Hlen : length (Model.data s) = 2880%nat).
  { rewrite <- (length_map Part002.minuteSinceStart), Hidx.
    apply Zseq_length. }
  destruct (Part002_tick_data_full s) as (last & Hlast & Hsnd & Hdata);
    [lia|].
  assert (Hnew : Part002.minuteSinceStart (Part002_appended s last)
                 = (k + 2880)%Z).
  { apply (map_nth_error Part002.minuteSinceStart) in Hlast.
    rewrite Hidx, Hlen, Zseq_nth_error in Hlast by lia.
    injection Hlast as Hlast.
    cbn [Part002_appended Part002.minuteSinceStart].
    rewrite <- Hlast. lia. }
  destruct (Model.data s) as [|oldest rest] eqn:E; [discriminate Hlen|].
  exists k, oldest, rest, (Part002_appended s last).
  split; [reflexivity|].
  split.
  { pose proof (Zseq_nth_error k 2880 0 ltac:(lia)) as H0.
    rewrite <- Hidx in H0. cbn [map nth_error] in H0.
    injection H0 as H0. rewrite H0. apply Z.add_0_r. }
  split; [rewrite Hidx; apply Zseq_sorted|].
  split; [exact Hsnd|].
  split; [exact Hdata|].
  split; [apply Part002_tick_length_full; fold s; rewrite E; exact Hlen|].
  split; [exact Hnew|].
  split.
  { rewrite Hnew. apply Forall_forall. intros x Hx.
    apply (in_map Part002.minuteSinceStart) in Hx.
    rewrite Hidx in Hx. apply Zseq_In in Hx.
    change (Z.of_nat 2880) with 2880%Z in Hx. lia. }
  rewrite Hidx'. split; [|apply Zseq_sorted].
  intros Hin. apply Zseq_In in Hin. lia.
Qed.

Lemma Part002_sequence_index_increases_example :
  exists newest,
    nth_error
      (Model.data
         (Part002.tick_state
            (Model.state
               (Model.run Part002.tick_state Part002.initial
                  [Model.Tick; Model.Click smoke; Model.Tick]))))
      2879
    = Some newest
    /\ Part002.minuteSinceStart newest = 2882%Z.
Proof.
  set (sys := Model.run Part002.tick_state Part002.initial
                [Model.Tick; Model.Click smoke; Model.Tick]).
  assert (R : Part002.reachable sys).
  { repeat apply Model.reachable_step. apply Model.reachable_initial. }
  destruct (Part002_sequence_index_increases sys R)
    as (k & oldest & rest & newest & Hd & Hk & _ & _ & Hd' & Hlen & Hnew & _).
  exists newest. split.
  - rewrite Hd'. rewrite Hd', length_app in Hlen. simpl length in Hlen.
    rewrite nth_error_app2 by lia.
    replace (2879 - length rest)%nat with 0%nat by lia. reflexivity.
  - rewrite Hnew, <- Hk.
    assert (Hhd : hd_error (Model.data (Model.state sys)) = Some oldest)
      by (rewrite Hd; reflexivity).
    vm_compute in Hhd. injection Hhd as <-. reflexivity.
Defined.

(** In src/Model/Model.tsx the index of an appended sample is the length
    of the buffer, which is 2880 in every reachable state. *)
Lemma ModelTsx_appended_index (sys : Model.System ModelTsx.DataPoint) :
  ModelTsx.reachable sys ->
  Model.data (ModelTsx.tick (Model.state sys))
  = tl (Model.data (Model.state sys)) ++ [ModelTsx_appended (Model.state sys)]
  /\ ModelTsx.minuteOfDay (ModelTsx_appended (Model.state sys)) = 2880%Z.
Proof.
  intros Hreach.
  pose proof (reachable_data ModelTsx.tick ModelTsx.initialData
                (fun d => length d = 2880%nat)
                ModelTsx_initialData_length ModelTsx_tick_length_full
                sys Hreach) as Hlen.
  cbv beta in Hlen.
  split; [apply ModelTsx_tick_data_full; lia|].
  cbn [ModelTsx_appended ModelTsx.minuteOfDay]. rewrite Hlen. reflexivity.
Qed.

(** C4.  In src/Model/Model.tsx the index is not strictly increasing.
    After one tick from the initial state the buffer is full, its oldest
    sample has index 1 and its newest 2880.  The next tick keeps the length
    at 2880 and drops the sample with index 1, but the sample it appends has
    index 2880 again, not 1 + 2880: the two newest samples share an index. *)
Theorem ModelTsx_minuteOfDay_repeats :
  let index (s : ModelTsx.State) (i : nat) :=
    option_map ModelTsx.minuteOfDay (nth_error (Model.data s) i) in
  let s1 := ModelTsx.tick (Model.state ModelTsx.initial) in
  let s2 := ModelTsx.tick s1 in
  length (Model.data s1) = 2880%nat
  /\ index s1 0%nat = Some 1%Z
  /\ index s1 2879%nat = Some 2880%Z
  /\ length (Model.data s2) = 2880%nat
  /\ index s2 0%nat = Some 2%Z
  /\ index s2 2878%nat = Some 2880%Z
  /\ index s2 2879%nat = Some 2880%Z
  /\ index s2 2879%nat <> Some (1 + 2880)%Z.
Proof.
  vm_compute. repeat split. discriminate.
Qed.

(** ** Turning an activity on *)




(** The switch asks for an activity to be turned on only when the list of
    its render does not hold it; a click on a running activity turns it
    off. *)
Lemma onClick_toggles {D : Type} (sys : Model.System D) (activity : Activity) :
  Qle_bool 1 (Model.pool (Model.state sys)) = true ->
  Model.activities (Model.state (Model.onClick sys activity))
  = Model.onActivityToggle (Model.activities (Model.state sys)) activity
      (negb (Model.active (Model.activities (Model.state sys)) activity)).
Proof.
  intros Hen. unfold Model.onClick. rewrite Hen. reflexivity.
Qed.

(** ** Looking up an activity *)

(** C8 fails as stated: ["nap"] is not a key of the table, and the lookup
    throws a [TypeError], not [UnknownActivity]. *)
Lemma unknown_id_throws_TypeError :
  ~ In "nap"%string (map key Object_keys)
  /\ Dynamic.dopamineTurnover "nap" 0 = Js.Throw Js.TypeError
  /\ Dynamic.dopamineTurnover "nap" 0 <> Js.Throw UnknownActivity.
Proof.
  split; [|split; [reflexivity | discriminate]].
  simpl. intros H.
  repeat (destruct H as [H|H]; [discriminate H|]). exact H.
Qed.

Lemma assoc_None (k : string) (l : list (string * ActivityDefinition)) :
  Dynamic.assoc k l = None <-> ~ In k (map fst l).
Proof.
  induction l as [|[k' d] l IH]; simpl.
  - tauto.
  - destruct (String.eqb_spec k k') as [->|Hne].
    + split; [discriminate | intros H; exfalso; apply H; now left].
    + rewrite IH. split.
      * intros H [E|Hin]; [congruence | contradiction].
      * intros H Hin. apply H. now right.
Qed.

Lemma existsb_eqb_In (k : string) (l : list string) :
  existsb (String.eqb k) l = true <-> In k l.
Proof.
  rewrite existsb_exists. split.
  - intros (x & Hin & E). apply String.eqb_eq in E. now subst.
  - intros Hin. exists k. split; [exact Hin | apply String.eqb_refl].
Qed.

(** C8, amended.  For each of the eight ids of the table the lookup
    succeeds and yields that id's definition, and [dopamineTurnover] returns
    the baseline times its factor.  For any other string nothing raises
    [UnknownActivity]: the property is missing and reading its [factor]
    throws a [TypeError], unless the name is inherited from
    [Object.prototype], in which case the result is [NaN]. *)
Theorem lookup_by_key :
  (forall (a : Activity) (t : Q),
      Dynamic.get (key a) = Dynamic.Own (ACTIVITIES a)
      /\ Dynamic.dopamineTurnover (key a) t
         = Js.Return (Js.Num (dopamineTurnover a t)))
  /\ (forall (k : string) (t : Q),
        ~ In k (map key Object_keys) ->
        (~ In k Js.Object_prototype_keys ->
         Dynamic.get k = Dynamic.Undefined
         /\ Dynamic.dopamineTurnover k t = Js.Throw Js.TypeError)
        /\ (In k Js.Object_prototype_keys ->
            Dynamic.get k = Dynamic.Inherited
            /\ Dynamic.dopamineTurnover k t = Js.Return Js.NaN))
  /\ (forall (k : string) (t : Q),
        Dynamic.dopamineTurnover k t <> Js.Throw UnknownActivity).
Proof.
  split; [|split].
  - intros a t. destruct a; split; reflexivity.
  - intros k t Hkey.
    assert (Hown : Dynamic.assoc k Dynamic.own_properties = None).
    { apply assoc_None. exact Hkey. }
    unfold Dynamic.dopamineTurnover, Dynamic.get. rewrite Hown.
    split; intros Hproto.
    + destruct (existsb (String.eqb k) Js.Object_prototype_keys) eqn:E.
      * apply existsb_eqb_In in E. contradiction.
      * split; reflexivity.
    + apply existsb_eqb_In in Hproto. rewrite Hproto. split; reflexivity.
  - intros k t. unfold Dynamic.dopamineTurnover.
    destruct (Dynamic.get k); discriminate.
Qed.

Lemma lookup_by_key_witness :
  (~ In "nap"%string (map key Object_keys)
   /\ ~ In "nap"%string Js.Object_prototype_keys
   /\ Dynamic.dopamineTurnover "nap" 0 = Js.Throw Js.TypeError)
  /\ (~ In "valueOf"%string (map key Object_keys)
      /\ In "valueOf"%string Js.Object_prototype_keys
      /\ Dynamic.dopamineTurnover "valueOf" 0 = Js.Return Js.NaN).
Proof.
  assert (Hnap : ~ In "nap"%string (map key Object_keys)).
  { apply (assoc_None "nap" Dynamic.own_properties). reflexivity. }
  assert (Hnap' : ~ In "nap"%string Js.Object_prototype_keys).
  { intros H. apply existsb_eqb_In in H. discriminate H. }
  assert (Hval : ~ In "valueOf"%string (map key Object_keys)).
  { apply (assoc_None "valueOf" Dynamic.own_properties). reflexivity. }
  assert (Hval' : In "valueOf"%string Js.Object_prototype_keys).
  { apply existsb_eqb_In. reflexivity. }
  split.
  - split; [exact Hnap|]. split; [exact Hnap'|].
    exact (proj2 (proj1 (proj1 (proj2 lookup_by_key) "nap"%string 0 Hnap)
                    Hnap')).
  - split; [exact Hval|]. split; [exact Hval'|].
    exact (proj2 (proj2 (proj1 (proj2 lookup_by_key) "valueOf"%string 0 Hval)
                    Hval')).
Defined.

(** * Further properties of the code *)

(** ** Turning an activity off, and clicks *)

Lemma filter_absent (activities : list Activity) (activity : Activity) :
  ~ In activity activities ->
  filter (fun a => negb (Activity_eqb a activity)) activities = activities.
Proof.
  induction activities as [|x l IH]; intros Hnot; simpl; [reflexivity|].
  destruct (Activity_eqb x activity) eqn:E; simpl.
  - apply Activity_eqb_eq in E. subst. exfalso. apply Hnot. now left.
  - rewrite IH; [reflexivity|]. intros H. apply Hnot. now right.
Qed.

Lemma active_false (activities : list Activity) (activity : Activity) :
  Model.active activities activity = false <-> ~ In activity activities.
Proof.
  rewrite <- active_In. destruct (Model.active activities activity).
  - split; [discriminate | intros H; now destruct H].
  - split; [discriminate | reflexivity].
Qed.

(** Turning an activity off removes every occurrence of it and nothing
    else, and doing it twice is the same as doing it once. *)
Theorem toggle_off_removes_every_occurrence
    (activities : list Activity) (activity : Activity) :
  ~ In activity (Model.onActivityToggle activities activity false)
  /\ (forall a,
        In a (Model.onActivityToggle activities activity false)
        <-> In a activities /\ a <> activity)
  /\ Model.onActivityToggle
       (Model.onActivityToggle activities activity false) activity false
     = Model.onActivityToggle activities activity false
  /\ (length (Model.onActivityToggle activities activity false)
      <= length activities)%nat.
Proof.
  assert (Hnot : ~ In activity
                   (Model.onActivityToggle activities activity false)).
  { intros H. apply toggle_off_filter in H. now destruct H. }
  split; [exact Hnot|]. split; [intros a; apply toggle_off_filter|].
  split.
  - apply (filter_absent _ _ Hnot).
  - apply filter_length_le.
Qed.

(** On a list that does not hold the activity, turning it off changes
    nothing, and turning it on and then off gives the list back. *)
Theorem toggle_on_off_round_trip
    (activities : list Activity) (activity : Activity)
    (Habsent : ~ In activity activities) :
  Model.onActivityToggle activities activity false = activities
  /\ Model.onActivityToggle
       (Model.onActivityToggle activities activity true) activity false
     = activities.
Proof.
  split; [apply filter_absent, Habsent|].
  unfold Model.onActivityToggle. rewrite filter_app. simpl.
  destruct (Activity_eqb_eq activity activity) as [_ E].
  rewrite E by reflexivity. simpl.
  rewrite app_nil_r. apply filter_absent, Habsent.
Qed.

Lemma toggle_on_off_round_trip_witness :
  ~ In play [work; sleep]
  /\ Model.onActivityToggle
       (Model.onActivityToggle [work; sleep] play true) play false
     = [work; sleep].
Proof.
  assert (H : ~ In play [work; sleep]).
  { intros [H|[H|[]]]; discriminate H. }
  split; [exact H|].
  exact (proj2 (toggle_on_off_round_trip [work; sleep] play H)).
Defined.

(** A click on an enabled switch flips the running flag of its own
    activity, leaves the flag of every other activity alone and touches
    neither the reserve nor the buffer; a click while the reserve is below 1
    does nothing at all, so a running activity cannot be stopped then. *)
Theorem click_flips_its_own_flag
    {D : Type} (sys : Model.System D) (activity : Activity) :
  (Qle_bool 1 (Model.pool (Model.state sys)) = true ->
   Model.active (Model.activities (Model.state (Model.onClick sys activity)))
     activity
   = negb (Model.active (Model.activities (Model.state sys)) activity)
   /\ (forall other, other <> activity ->
         Model.active
           (Model.activities (Model.state (Model.onClick sys activity))) other
         = Model.active (Model.activities (Model.state sys)) other)
   /\ Model.pool (Model.state (Model.onClick sys activity))
      = Model.pool (Model.state sys)
   /\ Model.data (Model.state (Model.onClick sys activity))
      = Model.data (Model.state sys))
  /\ (Qle_bool 1 (Model.pool (Model.state sys)) = false ->
      Model.onClick sys activity = sys).
Proof.
  unfold Model.onClick. split; intros Hen; rewrite Hen; [|reflexivity].
  cbn [Model.state Model.setActivities Model.activities Model.pool Model.data].
  split; [|split; [|split; reflexivity]].
  - destruct (Model.active (Model.activities (Model.state sys)) activity)
      eqn:E; cbn [negb].
    + apply active_false. intros H. apply toggle_off_filter in H.
      now destruct H.
    + apply active_In. unfold Model.onActivityToggle.
      apply in_or_app. right. now left.
  - intros other Hne.
    destruct (Model.active (Model.activities (Model.state sys)) activity)
      eqn:E; cbn [negb].
    + destruct (Model.active (Model.activities (Model.state sys)) other)
        eqn:Eo.
      * apply active_In. apply toggle_off_filter.
        split; [now apply active_In | exact Hne].
      * apply active_false. intros H. apply toggle_off_filter in H.
        destruct H as [H _]. apply active_In in H. congruence.
    + destruct (Model.active (Model.activities (Model.state sys)) other)
        eqn:Eo.
      * apply active_In. unfold Model.onActivityToggle.
        apply in_or_app. left. now apply active_In.
      * apply active_false. unfold Model.onActivityToggle.
        intros H. apply in_app_or in H. destruct H as [H|[H|[]]].
        -- apply active_In in H. congruence.
        -- congruence.
Qed.

Lemma click_flips_its_own_flag_witness :
  (Qle_bool 1 50 = true
   /\ Model.active
        (Model.activities
           (Model.state (Model.onClick ModelTsx.initial smoke))) smoke
      = true)
  /\ (Qle_bool 1 0.5 = false
      /\ Model.onClick
           {| Model.state :=
                {| Model.pool := 0.5; Model.data := @nil Part002.DataPoint;
                   Model.activities := [smoke] |};
              Model.timeouts := [] |} smoke
         = {| Model.state :=
                {| Model.pool := 0.5; Model.data := [];
                   Model.activities := [smoke] |};
              Model.timeouts := [] |}).
Proof.
  split.
  - split; [reflexivity|].
    exact (proj1 (proj1 (click_flips_its_own_flag ModelTsx.initial smoke)
                    eq_refl)).
  - split; [reflexivity|].
    exact (proj2 (click_flips_its_own_flag
                    {| Model.state :=
                         {| Model.pool := 0.5;
                            Model.data := @nil Part002.DataPoint;
                            Model.activities := [smoke] |};
                       Model.timeouts := [] |} smoke) eq_refl).
Defined.

(** ** Running activities and pending timeouts in reachable states *)

Section Timeouts.

Context {D : Type}.
Variable tick : Model.State D -> Model.State D.
Variable initialData : list D.

(** A timeout is created only by a click that turns its activity on, so
    the list it captured does not hold that activity. *)
Lemma reachable_timeouts_fresh (sys : Model.System D) :
  Model.reachable tick initialData sys ->
  Forall (fun t => ~ In (Model.props_activity t) (Model.closure_activities t))
    (Model.timeouts sys).
Proof.
  induction 1 as [|sys e _ IH]; [constructor|].
  destruct e as [|activity|n]; simpl.
  - exact IH.
  - unfold Model.onClick.
    destruct (Qle_bool 1 (Model.pool (Model.state sys))); [|exact IH].
    destruct (Model.active (Model.activities (Model.state sys)) activity)
      eqn:E; simpl; [exact IH|].
    apply Forall_app. split; [exact IH|].
    repeat constructor. simpl. now apply active_false.
  - unfold Model.onTimeout.
    destruct (nth_error (Model.timeouts sys) n) as [t|] eqn:E; [|exact IH].
    simpl. rewrite Forall_forall in *. intros x Hx.
    apply IH. apply in_app_or in Hx. destruct Hx as [Hx|Hx].
    + exact (In_take n _ _ Hx).
    + exact (In_drop (S n) _ _ Hx).
Qed.

Lemma expiry_restores (sys : Model.System D) (n : nat) (t : Model.Timeout) :
  Model.reachable tick initialData sys ->
  nth_error (Model.timeouts sys) n = Some t ->
  Model.activities (Model.state (Model.onTimeout sys n))
  = Model.closure_activities t
  /\ ~ In (Model.props_activity t)
       (Model.activities (Model.state (Model.onTimeout sys n)))
  /\ S (length (Model.timeouts (Model.onTimeout sys n)))
     = length (Model.timeouts sys).
Proof.
  intros Hreach E.
  pose proof (reachable_timeouts_fresh sys Hreach) as Hfresh.
  rewrite Forall_forall in Hfresh.
  pose proof (Hfresh t (nth_error_In _ _ E)) as Ht.
  unfold Model.onTimeout. rewrite E. simpl.
  unfold Model.onActivityToggle. rewrite (filter_absent _ _ Ht).
  split; [reflexivity|]. split; [exact Ht|].
  assert (Hn : (n < length (Model.timeouts sys))%nat).
  { apply nth_error_Some. congruence. }
  rewrite length_app, length_firstn.
  change (match Model.timeouts sys with
          | [] => []
          | _ :: l => skipn n l
          end) with (skipn (S n) (Model.timeouts sys)).
  rewrite length_skipn. lia.
Qed.

End Timeouts.

(** In both revisions the list of running activities of a reachable state
    holds no id twice, hence at most eight ids. *)
Theorem reachable_activities_NoDup :
  (forall sys, ModelTsx.reachable sys ->
     NoDup (Model.activities (Model.state sys))
     /\ (length (Model.activities (Model.state sys)) <= 8)%nat)
  /\ (forall sys, Part002.reachable sys ->
        NoDup (Model.activities (Model.state sys))
        /\ (length (Model.activities (Model.state sys)) <= 8)%nat).
Proof.
  assert (Hall : forall l : list Activity, NoDup l -> (length l <= 8)%nat).
  { intros l Hl.
    change 8%nat with (length Object_keys).
    apply NoDup_incl_length; [exact Hl|].
    intros a _. destruct a; simpl; tauto. }
  split; intros sys Hreach.
  - destruct (reachable_NoDup ModelTsx.tick ModelTsx.initialData
                ModelTsx_tick_activities sys Hreach) as [H _].
    split; [exact H | apply Hall, H].
  - destruct (reachable_NoDup Part002.tick_state Part002.initialData
                Part002_tick_activities sys Hreach) as [H _].
    split; [exact H | apply Hall, H].
Qed.

Lemma reachable_activities_NoDup_witness :
  ModelTsx.reachable
    (Model.run ModelTsx.tick ModelTsx.initial
       [Model.Click work; Model.Click work; Model.Click work])
  /\ NoDup (Model.activities
              (Model.state
                 (Model.run ModelTsx.tick ModelTsx.initial
                    [Model.Click work; Model.Click work; Model.Click work])))
  /\ Part002.reachable
       (Model.run Part002.tick_state Part002.initial
          [Model.Click sleep; Model.Tick; Model.Click play])
  /\ NoDup (Model.activities
              (Model.state
                 (Model.run Part002.tick_state Part002.initial
                    [Model.Click sleep; Model.Tick; Model.Click play]))).
Proof.
  assert (R1 : ModelTsx.reachable
                 (Model.run ModelTsx.tick ModelTsx.initial
                    [Model.Click work; Model.Click work; Model.Click work])).
  { repeat apply Model.reachable_step. apply Model.reachable_initial. }
  assert (R2 : Part002.reachable
                 (Model.run Part002.tick_state Part002.initial
                    [Model.Click sleep; Model.Tick; Model.Click play])).
  { repeat apply Model.reachable_step. apply Model.reachable_initial. }
  split; [exact R1|].
  split; [exact (proj1 (proj1 reachable_activities_NoDup _ R1))|].
  split; [exact R2|].
  exact (proj1 (proj2 reachable_activities_NoDup _ R2)).
Defined.

(** In both revisions, when a pending timeout of a reachable state runs,
    the list of running activities becomes exactly the list of the render
    in which that activity was turned on: the activity is off, and every
    change made to the list since then is undone.  The timeout is
    consumed. *)
Theorem timeout_restores_captured_list :
  (forall sys n t,
      ModelTsx.reachable sys ->
      nth_error (Model.timeouts sys) n = Some t ->
      Model.activities (Model.state (ModelTsx.step sys (Model.Expire n)))
      = Model.closure_activities t
      /\ ~ In (Model.props_activity t)
           (Model.activities
              (Model.state (ModelTsx.step sys (Model.Expire n))))
      /\ S (length (Model.timeouts (ModelTsx.step sys (Model.Expire n))))
         = length (Model.timeouts sys))
  /\ (forall sys n t,
        Part002.reachable sys ->
        nth_error (Model.timeouts sys) n = Some t ->
        Model.activities (Model.state (Part002.step sys (Model.Expire n)))
        = Model.closure_activities t
        /\ ~ In (Model.props_activity t)
             (Model.activities
                (Model.state (Part002.step sys (Model.Expire n))))
        /\ S (length (Model.timeouts (Part002.step sys (Model.Expire n))))
           = length (Model.timeouts sys)).
Proof.
  split; intros sys n t Hreach E.
  - exact (expiry_restores ModelTsx.tick ModelTsx.initialData sys n t Hreach E).
  - exact (expiry_restores Part002.tick_state Part002.initialData
             sys n t Hreach E).
Qed.

Lemma timeout_restores_captured_list_witness :
  (ModelTsx.reachable
     (Model.run ModelTsx.tick ModelTsx.initial
        [Model.Click work; Model.Click play])
   /\ Model.activities
        (Model.state
           (ModelTsx.step
              (Model.run ModelTsx.tick ModelTsx.initial
                 [Model.Click work; Model.Click play])
              (Model.Expire 1)))
      = [work])
  /\ (Part002.reachable
        (Model.run Part002.tick_state Part002.initial
           [Model.Click work; Model.Click play])
      /\ Model.activities
           (Model.state
              (Part002.step
                 (Model.run Part002.tick_state Part002.initial
                    [Model.Click work; Model.Click play])
                 (Model.Expire 0)))
         = []).
Proof.
  assert (R1 : ModelTsx.reachable
                 (Model.run ModelTsx.tick ModelTsx.initial
                    [Model.Click work; Model.Click play])).
  { repeat apply Model.reachable_step. apply Model.reachable_initial. }
  assert (R2 : Part002.reachable
                 (Model.run Part002.tick_state Part002.initial
                    [Model.Click work; Model.Click play])).
  { repeat apply Model.reachable_step. apply Model.reachable_initial. }
  split.
  - split; [exact R1|].
    exact (proj1 (proj1 timeout_restores_captured_list _ 1%nat
                    {| Model.props_activity := play;
                       Model.closure_activities := [work] |} R1 eq_refl)).
  - split; [exact R2|].
    exact (proj1 (proj2 timeout_restores_captured_list _ 0%nat
                    {| Model.props_activity := work;
                       Model.closure_activities := [] |} R2 eq_refl)).
Defined.





(** ** The keys of the catalog *)

Lemma Object_keys_complete (a : Activity) : In a Object_keys.
Proof. destruct a; simpl; tauto. Qed.

Lemma Object_keys_NoDup : NoDup Object_keys.
Proof.
  unfold Object_keys.
  repeat (constructor;
          [simpl; intros H;
           repeat (destruct H as [H|H]; [discriminate H|]); exact H|]).
  constructor.
Qed.

(** ** The reserve over time *)

Section ReserveOverTime.

Context {D : Type}.
Variable tick : Model.State D -> Model.State D.

Hypothesis tick_pool : forall s,
  Model.pool (tick s)
  = Qmax 0 (Qmin 100
      (Model.pool s
       + (DopamineReserveRefillPerMinuteInPercent
          - totalDopamineUse (Model.activities s) 0))).

Hypothesis tick_activities : forall s,
  Model.activities (tick s) = Model.activities s.


End ReserveOverTime.



(** ** What the samples record *)

Section StateInvariant.

Context {D : Type}.
Variable tick : Model.State D -> Model.State D.
Variable initialData : list D.

(** A property of the component state that holds at the start, that a
    tick keeps and that does not depend on the running activities holds in
    every reachable state. *)
Lemma reachable_state (P : Model.State D -> Prop) :
  P (Model.state (Model.initial initialData)) ->
  (forall s, P s -> P (tick s)) ->
  (forall s l, P s -> P (Model.setActivities s l)) ->
  forall sys, Model.reachable tick initialData sys -> P (Model.state sys).
Proof.
  intros Hinit Htick Hset sys Hreach.
  induction Hreach as [|sys e _ IH]; [exact Hinit|].
  destruct e as [|activity|n]; simpl.
  - apply Htick, IH.
  - unfold Model.onClick.
    destruct (Qle_bool 1 (Model.pool (Model.state sys))); [|exact IH].
    apply Hset, IH.
  - unfold Model.onTimeout.
    destruct (nth_error (Model.timeouts sys) n); [|exact IH].
    apply Hset, IH.
Qed.

End StateInvariant.

Lemma Forall_tl {A : Type} (P : A -> Prop) (l : list A) :
  Forall P l -> Forall P (tl l).
Proof. intros H. destruct H; [constructor | assumption]. Qed.

Lemma nth_error_newest {A : Type} (l : list A) (x : A) :
  length l = 2880%nat -> nth_error (tl l ++ [x]) 2879 = Some x.
Proof.
  intros Hlen. destruct l as [|y l]; [discriminate Hlen|].
  cbn [tl]. assert (Hl : length l = 2879%nat) by (simpl in Hlen; lia).
  rewrite nth_error_app2 by lia. rewrite Hl, Nat.sub_diag. reflexivity.
Qed.

(** In both revisions and in every reachable state, every sample of the
    buffer has its [reservePercent] in [0, 100], and the newest sample
    carries exactly the current reserve: the last point of the chart and the
    progress bar show the same value. *)
Theorem samples_record_the_reserve :
  (forall sys, ModelTsx.reachable sys ->
     Forall (fun d => 0 <= ModelTsx.reservePercent d <= 100)
       (Model.data (Model.state sys))
     /\ exists newest,
          nth_error (Model.data (Model.state sys)) 2879 = Some newest
          /\ ModelTsx.reservePercent newest = Model.pool (Model.state sys))
  /\ (forall sys, Part002.reachable sys ->
        Forall (fun d => 0 <= Part002.reservePercent d <= 100)
          (Model.data (Model.state sys))
        /\ exists newest,
             nth_error (Model.data (Model.state sys)) 2879 = Some newest
             /\ Part002.reservePercent newest
                = Model.pool (Model.state sys)).
Proof.
  split.
  - intros sys Hreach.
    enough (H : length (Model.data (Model.state sys)) = 2880%nat
                /\ Forall (fun d => 0 <= ModelTsx.reservePercent d <= 100)
                     (Model.data (Model.state sys))
                /\ exists newest,
                     nth_error (Model.data (Model.state sys)) 2879
                     = Some newest
                     /\ ModelTsx.reservePercent newest
                        = Model.pool (Model.state sys))
      by (exact (proj2 H)).
    revert sys Hreach.
    apply (reachable_state ModelTsx.tick ModelTsx.initialData
             (fun s =>
                length (Model.data s) = 2880%nat
                /\ Forall (fun d => 0 <= ModelTsx.reservePercent d <= 100)
                     (Model.data s)
                /\ exists newest,
                     nth_error (Model.data s) 2879 = Some newest
                     /\ ModelTsx.reservePercent newest = Model.pool s)).
    + split; [exact ModelTsx_initialData_length|]. split.
      * apply Forall_forall. intros d Hin.
        apply in_map_iff in Hin. destruct Hin as (i & <- & _).
        simpl. split; discriminate.
      * exists {| ModelTsx.minuteOfDay := 2879;
                  ModelTsx.dopamineLevel :=
                    DopamineBaseTurnOverPerMinuteInPercent;
                  ModelTsx.reservePercent := 50;
                  ModelTsx.activities := [] |}.
        split; vm_compute; reflexivity.
    + intros s (Hlen & Hall & _).
      split; [apply ModelTsx_tick_length_full, Hlen|].
      rewrite ModelTsx_tick_data_full by lia. split.
      * apply Forall_app. split; [apply Forall_tl, Hall|].
        repeat constructor; apply (tick_pool_bounds _ ModelTsx_tick_pool).
      * exists (ModelTsx_appended s).
        split; [apply nth_error_newest, Hlen | reflexivity].
    + intros s l H. exact H.
  - intros sys Hreach.
    enough (H : length (Model.data (Model.state sys)) = 2880%nat
                /\ Forall (fun d => 0 <= Part002.reservePercent d <= 100)
                     (Model.data (Model.state sys))
                /\ exists newest,
                     nth_error (Model.data (Model.state sys)) 2879
                     = Some newest
                     /\ Part002.reservePercent newest
                        = Model.pool (Model.state sys))
      by (exact (proj2 H)).
    revert sys Hreach.
    apply (reachable_state Part002.tick_state Part002.initialData
             (fun s =>
                length (Model.data s) = 2880%nat
                /\ Forall (fun d => 0 <= Part002.reservePercent d <= 100)
                     (Model.data s)
                /\ exists newest,
                     nth_error (Model.data s) 2879 = Some newest
                     /\ Part002.reservePercent newest = Model.pool s)).
    + split; [exact Part002_initialData_length|]. split.
      * apply Forall_forall. intros d Hin.
        apply in_map_iff in Hin. destruct Hin as (i & <- & _).
        simpl. split; discriminate.
      * exists {| Part002.minuteSinceStart := 2879;
                  Part002.daytime := Part002.minuteSinceStartToDaytime 2879;
                  Part002.dopamineLevel :=
                    DopamineBaseTurnOverPerMinuteInPercent;
                  Part002.reservePercent := 50;
                  Part002.activities := [] |}.
        split; vm_compute; reflexivity.
    + intros s (Hlen & Hall & _).
      split; [apply Part002_tick_length_full, Hlen|].
      destruct (Part002_tick_data_full s) as (last & _ & _ & ->); [lia|].
      split.
      * apply Forall_app. split; [apply Forall_tl, Hall|].
        repeat constructor; apply (tick_pool_bounds _ Part002_tick_pool).
      * exists (Part002_appended s last).
        split; [apply nth_error_newest, Hlen | reflexivity].
    + intros s l H. exact H.
Qed.

Lemma samples_record_the_reserve_witness :
  (ModelTsx.reachable
     (Model.run ModelTsx.tick ModelTsx.initial
        [Model.Click amphetamine; Model.Tick])
   /\ exists newest,
        nth_error
          (Model.data
             (Model.state
                (Model.run ModelTsx.tick ModelTsx.initial
                   [Model.Click amphetamine; Model.Tick]))) 2879
        = Some newest
        /\ ModelTsx.reservePercent newest == 49.55)
  /\ (Part002.reachable
        (Model.run Part002.tick_state Part002.initial
           [Model.Tick; Model.Click sleep])
      /\ exists newest,
           nth_error
             (Model.data
                (Model.state
                   (Model.run Part002.tick_state Part002.initial
                      [Model.Tick; Model.Click sleep]))) 2879
           = Some newest
           /\ Part002.reservePercent newest == 50.05).
Proof.
  assert (R1 : ModelTsx.reachable
                 (Model.run ModelTsx.tick ModelTsx.initial
                    [Model.Click amphetamine; Model.Tick])).
  { repeat apply Model.reachable_step. apply Model.reachable_initial. }
  assert (R2 : Part002.reachable
                 (Model.run Part002.tick_state Part002.initial
                    [Model.Tick; Model.Click sleep])).
  { repeat apply Model.reachable_step. apply Model.reachable_initial. }
  split.
  - split; [exact R1|].
    destruct (proj2 (proj1 samples_record_the_reserve _ R1))
      as (newest & Hn & Hp).
    exists newest. split; [exact Hn|]. rewrite Hp.
    vm_compute. reflexivity.
  - split; [exact R2|].
    destruct (proj2 (proj2 samples_record_the_reserve _ R2))
      as (newest & Hn & Hp).
    exists newest. split; [exact Hn|]. rewrite Hp.
    vm_compute. reflexivity.
Defined.

(** ** The revision with [minuteSinceStart]: errors, labels and markers *)

(** The timer callback throws exactly when the buffer is empty.  It has
    then already set the new reserve, and it leaves the buffer empty. *)
Theorem Part002_tick_throws_iff_empty (s : Part002.State) :
  (snd (Part002.tick s) = Some Js.TypeError <-> Model.data s = [])
  /\ (snd (Part002.tick s) = None <-> Model.data s <> [])
  /\ (Model.data s = [] ->
      Model.data (fst (Part002.tick s)) = []
      /\ Model.pool (fst (Part002.tick s))
         = Qmax 0 (Qmin 100
             (Model.pool s
              + (DopamineReserveRefillPerMinuteInPercent
                 - totalDopamineUse (Model.activities s) 0)))
      /\ Render.currentMinute (fst (Part002.tick s))
         = Js.Throw Js.TypeError).
Proof.
  destruct (Model.data s) as [|d l] eqn:E.
  - destruct (Part002_tick_empty s E) as [Hsnd Hdata].
    rewrite Hsnd. split; [tauto|]. split.
    + split; [discriminate | intros H; now destruct H].
    + intros _. split; [exact Hdata|]. split; [apply Part002_tick_pool|].
      unfold Render.currentMinute.
      change (fst (Part002.tick s)) with (Part002.tick_state s).
      rewrite Hdata. reflexivity.
  - destruct (last_sample_defined (Model.data s)) as [last El].
    { rewrite E. discriminate. }
    destruct (Part002_tick_some s last El) as [Hsnd _].
    rewrite Hsnd. split; [|split].
    + split; discriminate.
    + split; [discriminate | reflexivity].
    + discriminate.
Qed.

Lemma Part002_tick_throws_iff_empty_witness :
  Model.data
    {| Model.pool := 50; Model.data := @nil Part002.DataPoint;
       Model.activities := [play] |} = []
  /\ Model.pool
       (fst (Part002.tick
               {| Model.pool := 50; Model.data := [];
                  Model.activities := [play] |})) == 49.95.
Proof.
  split; [reflexivity|].
  rewrite (proj1 (proj2 (proj2 (proj2 (Part002_tick_throws_iff_empty
             {| Model.pool := 50; Model.data := [];
                Model.activities := [play] |})) eq_refl))).
  reflexivity.
Defined.

Lemma Part002_reachable_labels (sys : Model.System Part002.DataPoint) :
  Part002.reachable sys ->
  Forall (fun d => Part002.daytime d
                   = Part002.minuteSinceStartToDaytime
                       (Part002.minuteSinceStart d))
    (Model.data (Model.state sys)).
Proof.
  revert sys.
  apply (reachable_data Part002.tick_state Part002.initialData
           (fun data =>
              length data = 2880%nat
              /\ Forall (fun d => Part002.daytime d
                                  = Part002.minuteSinceStartToDaytime
                                      (Part002.minuteSinceStart d)) data)).
  - split; [exact Part002_initialData_length|].
    apply Forall_forall. intros d Hin.
    apply in_map_iff in Hin. destruct Hin as (i & <- & _). reflexivity.
  - intros s [Hlen Hall].
    split; [apply Part002_tick_length_full, Hlen|].
    destruct (Part002_tick_data_full s) as (last & _ & _ & ->); [lia|].
    apply Forall_app. split; [apply Forall_tl, Hall|].
    repeat constructor.
Qed.

(** In every reachable state each sample's [daytime] is the label of its
    own [minuteSinceStart]. *)
Theorem Part002_daytime_is_label_of_index
    (sys : Model.System Part002.DataPoint)
    (Hreach : Part002.reachable sys) :
  Forall (fun d => Part002.daytime d
                   = Part002.minuteSinceStartToDaytime
                       (Part002.minuteSinceStart d))
    (Model.data (Model.state sys)).
Proof. exact (Part002_reachable_labels sys Hreach). Qed.

Lemma Part002_daytime_is_label_of_index_witness :
  Part002.reachable
    (Model.run Part002.tick_state Part002.initial [Model.Tick; Model.Tick])
  /\ Forall (fun d => Part002.daytime d
                      = Part002.minuteSinceStartToDaytime
                          (Part002.minuteSinceStart d))
       (Model.data
          (Model.state
             (Model.run Part002.tick_state Part002.initial
                [Model.Tick; Model.Tick]))).
Proof.
  assert (R : Part002.reachable
                (Model.run Part002.tick_state Part002.initial
                   [Model.Tick; Model.Tick])).
  { repeat apply Model.reachable_step. apply Model.reachable_initial. }
  split; [exact R|].
  exact (Part002_daytime_is_label_of_index _ R).
Defined.

Lemma distinct_strings_NoDup (l : list string) :
  distinct_strings l = true -> NoDup l.
Proof.
  induction l as [|x l IH]; simpl; intros H; constructor.
  - apply andb_true_iff in H. destruct H as [H _].
    apply negb_true_iff in H. intros Hin.
    apply existsb_eqb_In in Hin. congruence.
  - apply IH. apply andb_true_iff in H. tauto.
Qed.

Lemma NoDup_map_injective {A B : Type} (f : A -> B) (l : list A) :
  NoDup (map f l) ->
  forall x y, In x l -> In y l -> f x = f y -> x = y.
Proof.
  induction l as [|a l IH]; simpl; intros Hnd x y Hx Hy E; [contradiction|].
  inversion Hnd as [|? ? Hnot Hnd']; subst.
  destruct Hx as [<-|Hx], Hy as [<-|Hy].
  - reflexivity.
  - exfalso. apply Hnot. rewrite E. now apply in_map.
  - exfalso. apply Hnot. rewrite <- E. now apply in_map.
  - now apply IH.
Qed.

(** The 1440 labels of one day are pairwise different. *)
Lemma labels_of_a_day_distinct :
  NoDup (map Part002.minuteSinceStartToDaytime (Zseq 0 1440)).
Proof. apply distinct_strings_NoDup. vm_compute. reflexivity. Qed.

Lemma label_depends_on_minute_of_day (m : Z) :
  (0 <= m)%Z ->
  Part002.minuteSinceStartToDaytime m
  = Part002.minuteSinceStartToDaytime (Z.rem m (24 * 60)).
Proof.
  intros Hm. unfold Part002.minuteSinceStartToDaytime.
  rewrite (Z.rem_small (Z.rem m (24 * 60)) (24 * 60)); [reflexivity|].
  apply Z.rem_bound_pos; lia.
Qed.

(** Two minutes, neither negative, get the same clock label exactly when
    they are the same minute of the day; in particular the label repeats
    every 1440 minutes and never sooner. *)
Theorem daytime_label_identifies_minute_of_day (m m' : Z)
    (Hm : (0 <= m)%Z) (Hm' : (0 <= m')%Z) :
  Part002.minuteSinceStartToDaytime m = Part002.minuteSinceStartToDaytime m'
  <-> Z.rem m (24 * 60) = Z.rem m' (24 * 60).
Proof.
  split.
  - intros E.
    rewrite (label_depends_on_minute_of_day m Hm),
      (label_depends_on_minute_of_day m' Hm') in E.
    pose proof (Z.rem_bound_pos m (24 * 60) Hm ltac:(lia)) as B.
    pose proof (Z.rem_bound_pos m' (24 * 60) Hm' ltac:(lia)) as B'.
    apply (NoDup_map_injective _ _ labels_of_a_day_distinct);
      [apply Zseq_In | apply Zseq_In | exact E];
      change (Z.of_nat 1440) with 1440%Z; lia.
  - intros E.
    rewrite (label_depends_on_minute_of_day m Hm),
      (label_depends_on_minute_of_day m' Hm'), E.
    reflexivity.
Qed.

Lemma daytime_label_identifies_minute_of_day_witness :
  (0 <= 75)%Z /\ (0 <= 2955)%Z
  /\ Part002.minuteSinceStartToDaytime 75 = "1:15"%string
  /\ Part002.minuteSinceStartToDaytime 2955
     = Part002.minuteSinceStartToDaytime 75.
Proof.
  assert (H1 : (0 <= 75)%Z) by discriminate.
  assert (H2 : (0 <= 2955)%Z) by discriminate.
  split; [exact H1|]. split; [exact H2|]. split; [reflexivity|].
  exact (proj2 (daytime_label_identifies_minute_of_day 2955 75 H2 H1)
           eq_refl).
Defined.

Lemma Part002_sample_at (s : Part002.State) (k : Z) (i : nat) :
  map Part002.minuteSinceStart (Model.data s) = Zseq k 2880 ->
  (i < 2880)%nat ->
  exists d, nth_error (Model.data s) i = Some d
            /\ Part002.minuteSinceStart d = (k + Z.of_nat i)%Z.
Proof.
  intros Hidx Hi.
  pose proof (Zseq_nth_error k 2880 i Hi) as H.
  rewrite <- Hidx, nth_error_map in H.
  destruct (nth_error (Model.data s) i) as [d|]; [|discriminate H].
  exists d. split; [reflexivity|]. now injection H.
Qed.

Lemma label_of_midnight (m : Z) :
  (0 <= m)%Z -> Z.rem m (24 * 60) = 0%Z ->
  Part002.minuteSinceStartToDaytime m = "0:00"%string.
Proof.
  intros Hm Hr. rewrite (label_depends_on_minute_of_day m Hm), Hr.
  reflexivity.
Qed.

(** In every reachable state the render finds the index of the newest
    sample, and the two reference lines get as [x] the positions, counted
    from 1, of the two samples of the buffer that fall on midnight: those
    samples have a [minuteSinceStart] divisible by 1440 and the label
    ["0:00"].  The two positions are 1440 apart. *)
Theorem reference_lines_mark_midnight
    (sys : Model.System Part002.DataPoint)
    (Hreach : Part002.reachable sys) :
  exists (cm x2 x1 : Z) (d2 d1 : Part002.DataPoint),
    Render.currentMinute (Model.state sys) = Js.Return cm
    /\ Render.referenceLines cm = [x2; x1]
    /\ (1 <= x1 <= 1440)%Z /\ x2 = (x1 + 1440)%Z
    /\ nth_error (Model.data (Model.state sys)) (Z.to_nat (x1 - 1)) = Some d1
    /\ Z.rem (Part002.minuteSinceStart d1) (24 * 60) = 0%Z
    /\ Part002.daytime d1 = "0:00"%string
    /\ nth_error (Model.data (Model.state sys)) (Z.to_nat (x2 - 1)) = Some d2
    /\ Z.rem (Part002.minuteSinceStart d2) (24 * 60) = 0%Z
    /\ Part002.daytime d2 = "0:00"%string.
Proof.
  destruct (Part002_reachable_indices sys Hreach) as (k & Hk & Hidx).
  pose proof (Part002_reachable_labels sys Hreach) as Hlab.
  rewrite Forall_forall in Hlab.
  set (s := Model.state sys) in *.
  assert (Hlen : length (Model.data s) = 2880%nat).
  { rewrite <- (length_map Part002.minuteSinceStart), Hidx.
    apply Zseq_length. }
  set (cm := (k + 2879)%Z).
  set (r := Z.rem cm 1440).
  assert (Hr : (0 <= r < 1440)%Z) by (apply Z.rem_bound_pos; lia).
  assert (Hq : cm = (1440 * (cm ÷ 1440) + r)%Z)
    by (apply Z.quot_rem'; lia).
  assert (Hq0 : (0 <= cm ÷ 1440)%Z) by (apply Z.quot_pos; lia).
  destruct (Part002_sample_at s k 2879 Hidx ltac:(lia)) as (last & El & Il).
  destruct (Part002_sample_at s k (Z.to_nat (1440 - r - 1)) Hidx ltac:(lia))
    as (d1 & E1 & I1).
  destruct (Part002_sample_at s k (Z.to_nat (2880 - r - 1)) Hidx ltac:(lia))
    as (d2 & E2 & I2).
  rewrite Z2Nat.id in I1, I2 by lia.
  change (Z.of_nat 2879) with 2879%Z in Il.
  assert (M2 : Part002.minuteSinceStart d2 = ((cm ÷ 1440) * 1440)%Z)
    by (subst cm; lia).
  assert (M1 : Part002.minuteSinceStart d1 = ((cm ÷ 1440 - 1) * 1440)%Z)
    by (subst cm; lia).
  assert (R2 : Z.rem (Part002.minuteSinceStart d2) (24 * 60) = 0%Z)
    by (rewrite M2; apply Z.rem_mul; lia).
  assert (R1 : Z.rem (Part002.minuteSinceStart d1) (24 * 60) = 0%Z)
    by (rewrite M1; apply Z.rem_mul; lia).
  exists cm, (2880 - r)%Z, (1440 - r)%Z, d2, d1.
  split.
  { unfold Render.currentMinute. rewrite Hlen.
    change (2880 - 1)%nat with 2879%nat. rewrite El, Il. reflexivity. }
  split.
  { unfold Render.referenceLines.
    change (Z.rem cm (1 * 24 * 60)) with r.
    rewrite (Z.abs_eq r) by lia. reflexivity. }
  split; [lia|]. split; [lia|].
  split; [exact E1|]. split; [exact R1|].
  split.
  { rewrite (Hlab d1 (nth_error_In _ _ E1)).
    apply label_of_midnight; [lia | exact R1]. }
  split; [exact E2|]. split; [exact R2|].
  rewrite (Hlab d2 (nth_error_In _ _ E2)).
  apply label_of_midnight; [lia | exact R2].
Qed.

Lemma reference_lines_mark_midnight_witness :
  Part002.reachable Part002.initial
  /\ exists x2 x1 d1,
       Render.referenceLines 2879 = [x2; x1]
       /\ x2 = (x1 + 1440)%Z
       /\ nth_error Part002.initialData (Z.to_nat (x1 - 1)) = Some d1
       /\ Part002.daytime d1 = "0:00"%string.
Proof.
  split; [apply Model.reachable_initial|].
  destruct (reference_lines_mark_midnight Part002.initial
              (Model.reachable_initial _ _))
    as (cm & x2 & x1 & d2 & d1 & Hcm & Hx & _ & H21 & E1 & _ & L1 & _).
  assert (E : Render.currentMinute (Model.state Part002.initial)
              = Js.Return 2879%Z) by (vm_compute; reflexivity).
  rewrite E in Hcm. injection Hcm as <-.
  exists x2, x1, d1.
  split; [exact Hx|]. split; [exact H21|]. split; [exact E1 | exact L1].
Defined.

(** ** Below capacity *)

(** On a buffer of fewer than 2880 samples a tick evicts nothing: the
    buffer grows by the new sample at its end.  In src/Model/Model.tsx the
    new sample is numbered with the old length; in the other revision, which
    needs a sample to count from, it is numbered one above the last. *)
Theorem tick_below_capacity_appends :
  (forall s : ModelTsx.State,
      (length (Model.data s) < 2880)%nat ->
      exists newest,
        Model.data (ModelTsx.tick s) = Model.data s ++ [newest]
        /\ ModelTsx.minuteOfDay newest = Z.of_nat (length (Model.data s))
        /\ ModelTsx.reservePercent newest = Model.pool (ModelTsx.tick s)
        /\ ModelTsx.activities newest = Model.activities s)
  /\ (forall (s : Part002.State) (last : Part002.DataPoint),
        (length (Model.data s) < 2880)%nat ->
        nth_error (Model.data s) (length (Model.data s) - 1) = Some last ->
        exists newest,
          Part002.tick s
          = ({| Model.pool := Model.pool (Part002.tick_state s);
                Model.data := Model.data s ++ [newest];
                Model.activities := Model.activities s |}, None)
          /\ Part002.minuteSinceStart newest
             = (Part002.minuteSinceStart last + 1)%Z
          /\ Part002.reservePercent newest
             = Model.pool (Part002.tick_state s)
          /\ Part002.activities newest = Model.activities s).
Proof.
  split.
  - intros s Hlen. exists (ModelTsx_appended s).
    split; [apply ModelTsx_tick_data_below, Hlen|].
    repeat split.
  - intros s last Hlen El. exists (Part002_appended s last).
    split; [|repeat split].
    destruct (Part002_tick_some s last El) as [Hsnd Hdata].
    cbv zeta in Hdata. rewrite append_shift_below in Hdata by exact Hlen.
    rewrite <- Hdata, <- Part002_tick_activities.
    unfold Part002.tick_state in *.
    destruct (Part002.tick s) as [s' e]. simpl in *. subst e.
    destruct s'; reflexivity.
Qed.

Lemma tick_below_capacity_appends_witness :
  ((length (@nil ModelTsx.DataPoint) < 2880)%nat
   /\ exists newest,
        Model.data
          (ModelTsx.tick
             {| Model.pool := 50; Model.data := [];
                Model.activities := [] |}) = [newest]
        /\ ModelTsx.minuteOfDay newest = 0%Z)
  /\ ((1 < 2880)%nat
      /\ exists newest,
           Model.data
             (Part002.tick_state
                {| Model.pool := 50;
                   Model.data :=
                     [ {| Part002.minuteSinceStart := 6;
                          Part002.daytime := "0:06";
                          Part002.dopamineLevel := 0.05;
                          Part002.reservePercent := 50;
                          Part002.activities := [] |} ];
                   Model.activities := [] |})
           = [ {| Part002.minuteSinceStart := 6;
                  Part002.daytime := "0:06";
                  Part002.dopamineLevel := 0.05;
                  Part002.reservePercent := 50;
                  Part002.activities := [] |}; newest ]
           /\ Part002.minuteSinceStart newest = 7%Z).
Proof.
  split.
  - assert (H : (length (@nil ModelTsx.DataPoint) < 2880)%nat)
      by (apply Nat.ltb_lt; reflexivity).
    split; [exact H|].
    destruct (proj1 tick_below_capacity_appends
                {| Model.pool := 50; Model.data := [];
                   Model.activities := [] |} H)
      as (newest & Hd & Hi & _).
    exists newest. split; [exact Hd | exact Hi].
  - assert (H : (1 < 2880)%nat) by (apply Nat.ltb_lt; reflexivity).
    split; [exact H|].
    destruct (proj2 tick_below_capacity_appends
                {| Model.pool := 50;
                   Model.data :=
                     [ {| Part002.minuteSinceStart := 6;
                          Part002.daytime := "0:06";
                          Part002.dopamineLevel := 0.05;
                          Part002.reservePercent := 50;
                          Part002.activities := [] |} ];
                   Model.activities := [] |}
                {| Part002.minuteSinceStart := 6;
                   Part002.daytime := "0:06";
                   Part002.dopamineLevel := 0.05;
                   Part002.reservePercent := 50;
                   Part002.activities := [] |} H eq_refl)
      as (newest & Ht & Hi & _).
    exists newest. split.
    + unfold Part002.tick_state. rewrite Ht. reflexivity.
    + rewrite Hi. reflexivity.
Defined.

(** * The numeric code in double precision *)

(** ** Checking every list without duplicates *)

Lemma forall_duplicate_free_sound (P : list Activity -> bool) (fuel : nat) :
  forall l, forall_duplicate_free P fuel l = true ->
  forall l', NoDup (l ++ l') -> (length l' <= fuel)%nat ->
  P (l ++ l') = true.
Proof.
  induction fuel as [|fuel IH]; intros l H l' Hnd Hlen;
    cbn [forall_duplicate_free] in H;
    destruct (P l) eqn:HP; try discriminate H.
  - destruct l'; [|simpl in Hlen; lia]. now rewrite app_nil_r.
  - destruct l' as [|a l']; [now rewrite app_nil_r|].
    rewrite forallb_forall in H.
    pose proof (H a (Object_keys_complete a)) as Ha.
    destruct (Model.active l a) eqn:Eact.
    + exfalso. apply active_In in Eact.
      apply NoDup_remove_2 in Hnd. apply Hnd.
      apply in_or_app. now left.
    + replace (l ++ a :: l') with ((l ++ [a]) ++ l')
        by (rewrite <- app_assoc; reflexivity).
      apply (IH (l ++ [a]) Ha).
      * rewrite <- app_assoc. exact Hnd.
      * simpl in Hlen. lia.
Qed.

Lemma NoDup_at_most_8 (l : list Activity) : NoDup l -> (length l <= 8)%nat.
Proof.
  intros Hl. change 8%nat with (length Object_keys).
  apply NoDup_incl_length; [exact Hl|].
  intros a _. apply Object_keys_complete.
Qed.

Lemma forall_duplicate_free_all (P : list Activity -> bool) :
  forall_duplicate_free P 8 [] = true ->
  forall l, NoDup l -> P l = true.
Proof.
  intros H l Hl.
  exact (forall_duplicate_free_sound P 8 [] H l Hl (NoDup_at_most_8 l Hl)).
Qed.

(** ** The consumption in doubles *)

Lemma Double_fold_is_sum_from (f : Activity -> float) (l : list Activity)
    (acc : float) :
  fold_left (fun a b => PrimFloat.add a b) (map f l) acc
  = Double_sum_from f acc l.
Proof.
  revert acc; induction l as [|a l IH]; intros acc; simpl;
    [reflexivity | apply IH].
Qed.

Lemma consumption_units_exact (l : list Activity) :
  totalDopamineUse l 0 == consumption_units l # 80.
Proof.
  rewrite totalDopamineUse_sum.
  induction l as [|a l IH].
  - reflexivity.
  - cbn [sum_over consumption_units].
    assert (Ea : DopamineBaseTurnOverPerMinuteInPercent
                 * factor (ACTIVITIES a) == share_units a # 80)
      by (destruct a; reflexivity).
    assert (Es : (share_units a + consumption_units l)%Z # 80
                 == (share_units a # 80) + (consumption_units l # 80)).
    { unfold Qeq, Qplus. simpl. ring. }
    rewrite Es, <- IH, Ea. ring.
Qed.

Lemma Double_use_close_to_units (l : list Activity) :
  NoDup l ->
  within (1 # 2251799813685248) (consumption_units l # 80)
    (Double.totalDopamineUse l 0) = true.
Proof.
  apply (forall_duplicate_free_all
           (fun l => within (1 # 2251799813685248)
                       (consumption_units l # 80)
                       (Double.totalDopamineUse l 0))).
  vm_compute. reflexivity.
Qed.

Lemma within_spec (eps q : Q) (x : float) :
  within eps q x = true ->
  exists q', Q_of_double x = Some q' /\ Qabs (q' - q) <= eps.
Proof.
  unfold within. destruct (Q_of_double x) as [q'|]; [|discriminate].
  intros H. apply andb_true_iff in H. destruct H as [H1 H2].
  apply Qle_bool_iff in H1. apply Qle_bool_iff in H2.
  exists q'. split; [reflexivity|].
  apply Qabs_Qle_condition. split; lra.
Qed.

Set Warnings "-inexact-float".

Lemma Double_use_close_to_exact (l : list Activity) :
  NoDup l ->
  exists q, Q_of_double (Double.totalDopamineUse l 0) = Some q
            /\ Qabs (q - totalDopamineUse l 0) <= 1 # 2251799813685248.
Proof.
  intros Hl.
  destruct (within_spec _ _ _ (Double_use_close_to_units l Hl))
    as (q & Eq & Hq).
  exists q. split; [exact Eq|].
  rewrite consumption_units_exact. exact Hq.
Qed.

(** C1 fails as stated: in the doubles the code computes with, two orders
    of the same three activities give two different results. *)
Lemma totalDopamineUse_depends_on_order :
  Permutation [sleep; work; amphetamine] [sleep; amphetamine; work]
  /\ Double.totalDopamineUse [sleep; work; amphetamine] 0 = 0.5875%float
  /\ Double.totalDopamineUse [sleep; amphetamine; work] 0
     = 0.5875000000000001%float
  /\ PrimFloat.eqb (Double.totalDopamineUse [sleep; work; amphetamine] 0)
       (Double.totalDopamineUse [sleep; amphetamine; work] 0) = false
  /\ Double.totalDopamineUse [sleep; work; amphetamine] 0
     <> Double.totalDopamineUse [sleep; amphetamine; work] 0.
Proof.
  split; [apply perm_skip, perm_swap|].
  split; [vm_compute; reflexivity|].
  split; [vm_compute; reflexivity|].
  split; [vm_compute; reflexivity|].
  intros H.
  pose proof (f_equal
                (fun z => PrimFloat.eqb z
                            (Double.totalDopamineUse
                               [sleep; amphetamine; work] 0)) H) as E.
  vm_compute in E. discriminate E.
Qed.

(** C1, amended.  For every list of running activities,
    [totalDopamineUse] returns the baseline plus the sum of baseline times
    factor over the members, accumulated from left to right in double
    precision.  In exact arithmetic that value is the baseline plus the sum
    of the shares and does not depend on the order of the members.  In
    doubles the order matters only through rounding: for every list without
    duplicates the result is within 2^-51 of the exact value, and two orders
    of the same members give results within 2^-50 of each other. *)
Theorem totalDopamineUse_sum_up_to_rounding
    (activities : list Activity) (t : Q) (t' : float) :
  Double.totalDopamineUse activities t'
  = PrimFloat.add Double.DopamineBaseTurnOverPerMinuteInPercent
      (Double_sum_from
         (fun a => PrimFloat.mul Double.DopamineBaseTurnOverPerMinuteInPercent
                     (Double.factor a))
         0%float activities)
  /\ totalDopamineUse activities t
     == DopamineBaseTurnOverPerMinuteInPercent
        + sum_over
            (fun a => DopamineBaseTurnOverPerMinuteInPercent
                      * factor (ACTIVITIES a))
            activities
  /\ (forall activities',
        Permutation activities activities' ->
        totalDopamineUse activities' t == totalDopamineUse activities t)
  /\ (NoDup activities ->
      exists q,
        Q_of_double (Double.totalDopamineUse activities t') = Some q
        /\ Qabs (q - totalDopamineUse activities t)
           <= 1 # 2251799813685248
        /\ forall activities',
             Permutation activities activities' ->
             exists q',
               Q_of_double (Double.totalDopamineUse activities' t')
               = Some q'
               /\ Qabs (q' - totalDopamineUse activities t)
                  <= 1 # 2251799813685248
               /\ Qabs (q - q') <= 1 # 1125899906842624).
Proof.
  split; [|split; [|split]].
  - unfold Double.totalDopamineUse. f_equal.
    apply (Double_fold_is_sum_from
             (fun a => Double.dopamineTurnover a 0)).
  - apply totalDopamineUse_sum.
  - intros activities' Hperm. rewrite !totalDopamineUse_sum.
    rewrite (sum_over_Permutation _ _ _ Hperm). reflexivity.
  - intros Hnodup.
    destruct (Double_use_close_to_exact activities Hnodup) as (q & Eq & Hq).
    exists q. split; [exact Eq|]. split; [exact Hq|].
    intros activities' Hperm.
    destruct (Double_use_close_to_exact activities'
                (Permutation_NoDup Hperm Hnodup)) as (q' & Eq' & Hq').
    exists q'. split; [exact Eq'|].
    assert (Hsame : totalDopamineUse activities' 0
                    == totalDopamineUse activities 0).
    { rewrite !totalDopamineUse_sum.
      rewrite (sum_over_Permutation _ _ _ Hperm). reflexivity. }
    rewrite Hsame in Hq'.
    change (totalDopamineUse activities t)
      with (totalDopamineUse activities 0).
    split; [exact Hq'|].
    apply Qabs_Qle_condition in Hq. apply Qabs_Qle_condition in Hq'.
    apply Qabs_Qle_condition. destruct Hq, Hq'. split; lra.
Qed.

Lemma totalDopamineUse_sum_up_to_rounding_witness :
  Permutation [sleep; work; amphetamine] [sleep; amphetamine; work]
  /\ NoDup [sleep; work; amphetamine]
  /\ totalDopamineUse [sleep; amphetamine; work] 0 == 0.5875
  /\ exists q q',
       Q_of_double (Double.totalDopamineUse [sleep; work; amphetamine] 0)
       = Some q
       /\ Q_of_double (Double.totalDopamineUse [sleep; amphetamine; work] 0)
          = Some q'
       /\ Qabs (q - 0.5875) <= 1 # 2251799813685248
       /\ Qabs (q - q') <= 1 # 1125899906842624.
Proof.
  assert (Hperm : Permutation [sleep; work; amphetamine]
                    [sleep; amphetamine; work])
    by apply perm_skip, perm_swap.
  assert (Hnodup : NoDup [sleep; work; amphetamine]).
  { apply (NoDup_filter
             (fun a => Model.active [sleep; work; amphetamine] a)
             Object_keys_NoDup). }
  destruct (totalDopamineUse_sum_up_to_rounding
              [sleep; work; amphetamine] 0 0%float)
    as (_ & _ & Hexact & Hdouble).
  destruct (Hdouble Hnodup) as (q & Eq & Hq & Hothers).
  destruct (Hothers _ Hperm) as (q' & Eq' & _ & Hqq').
  split; [exact Hperm|]. split; [exact Hnodup|].
  split; [rewrite (Hexact _ Hperm); reflexivity|].
  exists q, q'.
  split; [exact Eq|]. split; [exact Eq'|]. split; [|exact Hqq'].
  assert (E : totalDopamineUse [sleep; work; amphetamine] 0 == 0.5875)
    by reflexivity.
  rewrite <- E. exact Hq.
Defined.

(** For every list without duplicates, which is every list a reachable
    state holds, the consumption the code computes is at least
    0.012499999999999997 and at most 1.1250000000000002, so it is always
    positive, and the difference added to the reserve at a tick is at least
    -1.0250000000000001 and at most 0.08750000000000001.  All four bounds
    are met. *)
Theorem consumption_bounds_in_doubles (activities : list Activity)
    (Hnodup : NoDup activities) :
  PrimFloat.leb 0.012499999999999997 (Double.totalDopamineUse activities 0)
  = true
  /\ PrimFloat.leb (Double.totalDopamineUse activities 0) 1.1250000000000002
     = true
  /\ PrimFloat.ltb 0 (Double.totalDopamineUse activities 0) = true
  /\ PrimFloat.leb (-1.0250000000000001) (Double.dopamineDiff activities)
     = true
  /\ PrimFloat.leb (Double.dopamineDiff activities) 0.08750000000000001
     = true.
Proof.
  pose proof (forall_duplicate_free_all
                (fun l =>
                   PrimFloat.leb 0.012499999999999997
                     (Double.totalDopamineUse l 0)
                   && PrimFloat.leb (Double.totalDopamineUse l 0)
                        1.1250000000000002
                   && PrimFloat.ltb 0 (Double.totalDopamineUse l 0)
                   && PrimFloat.leb (-1.0250000000000001)
                        (Double.dopamineDiff l)
                   && PrimFloat.leb (Double.dopamineDiff l)
                        0.08750000000000001)
                ltac:(vm_compute; reflexivity) activities Hnodup) as H.
  cbv beta in H.
  repeat (apply andb_true_iff in H; destruct H as [H ?]).
  repeat split; assumption.
Qed.

Lemma consumption_bounds_in_doubles_witness :
  NoDup [sleep]
  /\ Double.totalDopamineUse [sleep] 0 = 0.012499999999999997%float
  /\ Double.dopamineDiff [sleep] = 0.08750000000000001%float
  /\ PrimFloat.leb 0.012499999999999997 (Double.totalDopamineUse [sleep] 0)
     = true
  /\ NoDup [work; play; amphetamine; sex; chocolate; excercise; smoke]
  /\ Double.totalDopamineUse
       [work; play; amphetamine; sex; chocolate; excercise; smoke] 0
     = 1.1250000000000002%float
  /\ Double.dopamineDiff
       [work; play; amphetamine; sex; chocolate; excercise; smoke]
     = (-1.0250000000000001)%float
  /\ PrimFloat.leb
       (Double.totalDopamineUse
          [work; play; amphetamine; sex; chocolate; excercise; smoke] 0)
       1.1250000000000002
     = true.
Proof.
  assert (H1 : NoDup [sleep]).
  { apply (NoDup_filter (Activity_eqb sleep) Object_keys_NoDup). }
  assert (H2 : NoDup
                 [work; play; amphetamine; sex; chocolate; excercise; smoke]).
  { repeat (constructor;
            [simpl; intros H;
             repeat (destruct H as [H|H]; [discriminate H|]); exact H|]).
    constructor. }
  split; [exact H1|].
  split; [vm_compute; reflexivity|]. split; [vm_compute; reflexivity|].
  split; [exact (proj1 (consumption_bounds_in_doubles _ H1))|].
  split; [exact H2|].
  split; [vm_compute; reflexivity|]. split; [vm_compute; reflexivity|].
  exact (proj1 (proj2 (consumption_bounds_in_doubles _ H2))).
Defined.

(** ** The reserve in doubles *)

Lemma Double_ticks_fixed (r : float) (l : list Activity) (n : nat) :
  Double.newPool r l = r -> Double.ticks n r l = r.
Proof.
  intros Hfix. induction n as [|n IH]; simpl; [reflexivity|].
  rewrite IH. exact Hfix.
Qed.

Lemma Double_ticks_after (r : float) (l : list Activity) (m n : nat) :
  Double.ticks (n + m) r l = Double.ticks n (Double.ticks m r l) l.
Proof.
  induction n as [|n IH]; simpl; [reflexivity|]. now rewrite IH.
Qed.

(** Once the reserve has reached a value a tick does not change, it keeps
    that value. *)
Lemma Double_ticks_settled (r v : float) (l : list Activity) (m n : nat) :
  Double.ticks m r l = v -> Double.newPool v l = v -> (m <= n)%nat ->
  Double.ticks n r l = v.
Proof.
  intros Hm Hfix Hle.
  replace n with ((n - m) + m)%nat by lia.
  rewrite Double_ticks_after, Hm. apply Double_ticks_fixed, Hfix.
Qed.

Lemma forallb_below (P : nat -> bool) (N : nat) :
  forallb P (seq 0 N) = true -> forall n, (n < N)%nat -> P n = true.
Proof.
  intros H n Hn. rewrite forallb_forall in H.
  apply H. apply in_seq. lia.
Qed.

Section ReserveDrains.

Context {D : Type}.
Variable tick : Model.State D -> Model.State D.

Hypothesis tick_pool : forall s,
  Model.pool (tick s)
  = Qmax 0 (Qmin 100
      (Model.pool s
       + (DopamineReserveRefillPerMinuteInPercent
          - totalDopamineUse (Model.activities s) 0))).

Hypothesis tick_activities : forall s,
  Model.activities (tick s) = Model.activities s.

Lemma tick_pool_decreasing (s : Model.State D) :
  DopamineReserveRefillPerMinuteInPercent
    < totalDopamineUse (Model.activities s) 0 ->
  0 < Model.pool s ->
  Model.pool (tick s) < Model.pool s.
Proof.
  intros Huse Hpool. rewrite tick_pool.
  apply Q.max_lub_lt; [exact Hpool|].
  eapply Qle_lt_trans; [apply Q.le_min_r|]. lra.
Qed.

Lemma ticks_drain (s : Model.State D) (n : nat) :
  DopamineReserveRefillPerMinuteInPercent
    < totalDopamineUse (Model.activities s) 0 ->
  0 <= Model.pool s <= 100 ->
  Model.pool (Model.ticks tick (S n) s) <= Model.pool (Model.ticks tick n s)
  /\ (0 < Model.pool (Model.ticks tick n s) ->
      Model.pool (Model.ticks tick (S n) s)
      < Model.pool (Model.ticks tick n s))
  /\ 0 <= Model.pool (Model.ticks tick n s).
Proof.
  intros Huse Hpool.
  pose proof (ticks_pool_bounds tick tick_pool n s Hpool) as Hn.
  assert (Huse' : DopamineReserveRefillPerMinuteInPercent
                  < totalDopamineUse
                      (Model.activities (Model.ticks tick n s)) 0)
    by (rewrite (ticks_activities tick tick_activities); exact Huse).
  split; [|split].
  - apply (tick_pool_nonincreasing tick tick_pool); [lra | apply Hn].
  - intros Hpos. apply tick_pool_decreasing; assumption.
  - apply Hn.
Qed.

End ReserveDrains.

(** C7 fails as stated: the difference the code computes for
    [amphetamine] is not the double -0.45 but the next one below it. *)
Lemma amphetamine_delta_is_not_minus_0_45 :
  Double.dopamineDiff [amphetamine] = (-0.45000000000000007)%float
  /\ PrimFloat.eqb (Double.dopamineDiff [amphetamine]) (-0.45) = false
  /\ PrimFloat.ltb (Double.dopamineDiff [amphetamine]) (-0.45) = true.
Proof. repeat split; vm_compute; reflexivity. Qed.

(** C7, amended.  With [amphetamine] alone running (factor 10.0, baseline
    0.05) the consumption the code computes is 0.55 and the difference per
    tick is 0.1 - 0.55, which in doubles is -0.45000000000000007.  A tick
    replaces the reserve [r] by [max(0, min(100, r + difference))].  Under
    repeated ticks from a reserve in [0, 100] the reserve never rises, falls
    at every tick while it is positive, and never drops below 0, in both
    revisions; from the initial reserve 50 the code's reserve is positive
    and falling for 112 ticks, is 0 after the 112th and stays 0. *)
Theorem amphetamine_drains_reserve :
  Double.factor amphetamine = 10%float
  /\ Double.totalDopamineUse [amphetamine] 0 = 0.55%float
  /\ Double.dopamineDiff [amphetamine] = (-0.45000000000000007)%float
  /\ (forall r : float,
        Double.newPool r [amphetamine]
        = Double.Math_max 0
            (Double.Math_min 100
               (PrimFloat.add r (-0.45000000000000007))))
  /\ (forall n : nat,
        ((n < 112)%nat ->
         PrimFloat.ltb 0 (Double.ticks n 50 [amphetamine]) = true
         /\ PrimFloat.ltb (Double.ticks (S n) 50 [amphetamine])
              (Double.ticks n 50 [amphetamine]) = true)
        /\ ((112 <= n)%nat -> Double.ticks n 50 [amphetamine] = 0%float))
  /\ (forall (s : ModelTsx.State) (n : nat),
        Model.activities s = [amphetamine] ->
        0 <= Model.pool s <= 100 ->
        Model.pool (ModelTsx.ticks (S n) s) <= Model.pool (ModelTsx.ticks n s)
        /\ (0 < Model.pool (ModelTsx.ticks n s) ->
            Model.pool (ModelTsx.ticks (S n) s)
            < Model.pool (ModelTsx.ticks n s))
        /\ 0 <= Model.pool (ModelTsx.ticks n s))
  /\ (forall (s : Part002.State) (n : nat),
        Model.activities s = [amphetamine] ->
        0 <= Model.pool s <= 100 ->
        Model.pool (Part002.ticks (S n) s) <= Model.pool (Part002.ticks n s)
        /\ (0 < Model.pool (Part002.ticks n s) ->
            Model.pool (Part002.ticks (S n) s)
            < Model.pool (Part002.ticks n s))
        /\ 0 <= Model.pool (Part002.ticks n s)).
Proof.
  assert (Ediff : Double.dopamineDiff [amphetamine]
                  = (-0.45000000000000007)%float)
    by (vm_compute; reflexivity).
  split; [reflexivity|]. split; [vm_compute; reflexivity|].
  split; [exact Ediff|].
  split.
  { intros r. unfold Double.newPool. cbv zeta.
    change (PrimFloat.sub Double.DopamineReserveRefillPerMinuteInPercent
              (Double.totalDopamineUse [amphetamine] 0))
      with (Double.dopamineDiff [amphetamine]).
    rewrite Ediff. reflexivity. }
  split.
  { intros n. split.
    - intros Hn.
      pose proof (forallb_below
                    (fun n =>
                       PrimFloat.ltb 0 (Double.ticks n 50 [amphetamine])
                       && PrimFloat.ltb
                            (Double.ticks (S n) 50 [amphetamine])
                            (Double.ticks n 50 [amphetamine]))
                    112 ltac:(vm_compute; reflexivity) n Hn) as H.
      cbv beta in H. apply andb_true_iff in H. exact H.
    - intros Hn.
      apply (Double_ticks_settled 50 0 [amphetamine] 112 n);
        [vm_compute; reflexivity | vm_compute; reflexivity | exact Hn]. }
  split; intros s n Hact Hpool.
  - apply (ticks_drain ModelTsx.tick ModelTsx_tick_pool
             ModelTsx_tick_activities); [|exact Hpool].
    rewrite Hact. reflexivity.
  - apply (ticks_drain Part002.tick_state Part002_tick_pool
             Part002_tick_activities); [|exact Hpool].
    rewrite Hact. reflexivity.
Qed.

Lemma amphetamine_drains_reserve_witness :
  ((111 < 112)%nat
   /\ Double.ticks 111 50 [amphetamine] = 0.04999999999992466%float
   /\ PrimFloat.ltb (Double.ticks 112 50 [amphetamine])
        (Double.ticks 111 50 [amphetamine]) = true)
  /\ ((112 <= 500)%nat /\ Double.ticks 500 50 [amphetamine] = 0%float)
  /\ (0 <= 1 <= 100
      /\ Model.pool
           (ModelTsx.ticks 3
              {| Model.pool := 1; Model.data := [];
                 Model.activities := [amphetamine] |})
         <= Model.pool
              (ModelTsx.ticks 2
                 {| Model.pool := 1; Model.data := [];
                    Model.activities := [amphetamine] |}))
  /\ (0 <= 100 <= 100
      /\ 0 < 100
      /\ Model.pool
           (Part002.ticks 1
              {| Model.pool := 100; Model.data := [];
                 Model.activities := [amphetamine] |})
         < Model.pool
             (Part002.ticks 0
                {| Model.pool := 100; Model.data := [];
                   Model.activities := [amphetamine] |})).
Proof.
  assert (H1 : (111 < 112)%nat) by (apply Nat.ltb_lt; reflexivity).
  assert (H2 : (112 <= 500)%nat) by (apply Nat.leb_le; reflexivity).
  assert (Hpool1 : 0 <= 1 <= 100) by (split; discriminate).
  assert (Hpool2 : 0 <= 100 <= 100) by (split; discriminate).
  assert (Hpos : 0 < 100) by reflexivity.
  destruct amphetamine_drains_reserve
    as (_ & _ & _ & _ & Htraj & Hq1 & Hq2).
  split; [|split; [|split]].
  - split; [exact H1|]. split; [vm_compute; reflexivity|].
    exact (proj2 (proj1 (Htraj 111%nat) H1)).
  - split; [exact H2|]. exact (proj2 (Htraj 500%nat) H2).
  - split; [exact Hpool1|].
    exact (proj1 (Hq1 {| Model.pool := 1; Model.data := [];
                         Model.activities := [amphetamine] |}
                    2%nat eq_refl Hpool1)).
  - split; [exact Hpool2|]. split; [exact Hpos|].
    exact (proj1 (proj2 (Hq2 {| Model.pool := 100; Model.data := [];
                                Model.activities := [amphetamine] |}
                           0%nat eq_refl Hpool2)) Hpos).
Defined.

(** If no activity is ever turned on, the code's reserve starts at 50,
    stays below 100 and rises at each of the first 1001 ticks, is exactly
    100 after the 1001st and stays 100.  After 1000 ticks it is still
    99.99999999999716: the rounding of the 1000 additions adds up. *)
Theorem idle_reserve_fills_in_1001_ticks (n : nat) :
  ((n < 1001)%nat ->
   PrimFloat.ltb (Double.ticks n 50 []) 100 = true
   /\ PrimFloat.ltb (Double.ticks n 50 []) (Double.ticks (S n) 50 [])
      = true)
  /\ ((1001 <= n)%nat -> Double.ticks n 50 [] = 100%float)
  /\ Double.dopamineDiff [] = 0.05%float
  /\ Double.ticks 1000 50 [] = 99.99999999999716%float.
Proof.
  split; [|split; [|split; vm_compute; reflexivity]].
  - intros Hn.
    pose proof (forallb_below
                  (fun n =>
                     PrimFloat.ltb (Double.ticks n 50 []) 100
                     && PrimFloat.ltb (Double.ticks n 50 [])
                          (Double.ticks (S n) 50 []))
                  1001 ltac:(vm_compute; reflexivity) n Hn) as H.
    cbv beta in H. apply andb_true_iff in H. exact H.
  - intros Hn.
    apply (Double_ticks_settled 50 100 [] 1001 n);
      [vm_compute; reflexivity | vm_compute; reflexivity | exact Hn].
Qed.

Lemma idle_reserve_fills_in_1001_ticks_witness :
  ((7 < 1001)%nat
   /\ PrimFloat.ltb (Double.ticks 7 50 []) (Double.ticks 8 50 []) = true)
  /\ ((1001 <= 5000)%nat /\ Double.ticks 5000 50 [] = 100%float).
Proof.
  assert (H1 : (7 < 1001)%nat) by (apply Nat.ltb_lt; reflexivity).
  assert (H2 : (1001 <= 5000)%nat) by (apply Nat.leb_le; reflexivity).
  split.
  - split; [exact H1|].
    exact (proj2 (proj1 (idle_reserve_fills_in_1001_ticks 7) H1)).
  - split; [exact H2|].
    exact (proj1 (proj2 (idle_reserve_fills_in_1001_ticks 5000)) H2).
Defined.
